(** * setupenv: the macOS bootstrap sequence of the server workflow tool

    A shallow embedding of [serverworkflowtool/setupenv.py].  The Python
    code is effectful throughout (filesystem, external commands, one HTTP
    endpoint, operator prompts, logging, [sys.exit]); it is modelled in a
    state-and-exception monad over a [World] that holds the filesystem and
    the trace of every interaction performed so far. *)

From stdpp Require Import gmap strings list fin_maps pretty.
From Stdlib Require Import ZArith Lia.

Open Scope string_scope.
Open Scope list_scope.

(** ** Paths ([pathlib.Path]) *)

(** An absolute path is the list of its components below the root. *)
Abbreviation path := (list string).

(** [p / 'name'] for one more component. *)
Definition sub (p : path) (name : string) : path := p ++ [name].

(** [p / 'a/b'] for a relative path of several components. *)
Definition under (p : path) (rel : path) : path := p ++ rel.

(** [p.parent]; the root is its own parent. *)
Definition parent (p : path) : path := removelast p.

(** [str(p)] of an absolute path. *)
Definition str_path (p : path) : string := "/" +:+ String.concat "/" p.

(** A relative path as it is spelled inside a command line. *)
Definition str_rel (rel : path) : string := String.concat "/" rel.

(** ** The filesystem part of ExternalState *)

Inductive node : Type :=
| File (content : string)
| Dir.

Record entry : Type := Entry { e_node : node; e_owner : string }.

Abbreviation FS := (gmap path entry).

(** The root always exists and is a directory. *)
Definition stat (fs : FS) (p : path) : option entry :=
  match p with
  | [] => Some (Entry Dir "root")
  | _ => fs !! p
  end.

(** [p.exists()] *)
Definition exists_ (fs : FS) (p : path) : bool :=
  match stat fs p with Some _ => true | None => false end.

(** [p.is_file()] *)
Definition is_file (fs : FS) (p : path) : bool :=
  match stat fs p with Some (Entry (File _) _) => true | _ => false end.

(** [p.is_dir()] *)
Definition is_dir (fs : FS) (p : path) : bool :=
  match stat fs p with Some (Entry Dir _) => true | _ => false end.

(** [p.owner()], where the path exists. *)
Definition owner (fs : FS) (p : path) : option string :=
  e_owner <$> stat fs p.

(** The contents of a regular file. *)
Definition read (fs : FS) (p : path) : option string :=
  match stat fs p with Some (Entry (File c) _) => Some c | _ => None end.

(** Some proper ancestor of [p] is a regular file (the OS answers ENOTDIR). *)
Fixpoint file_above (fs : FS) (pre : path) (rest : path) : bool :=
  match rest with
  | [] => false
  | c :: rest' => is_file fs pre || file_above fs (pre ++ [c]) rest'
  end.

(** ** Interactions with the outside *)

Inductive level : Type := Info | Warning | Error.

(** One external command as the invocation framework runs it: under the
    working directory of the enclosing [ctx.cd], after the enclosing
    [ctx.prefix] commands, through [ctx.run] or [ctx.sudo]. *)
Record invocation : Type := Invocation {
  i_sudo : bool;
  i_cwd : option path;
  i_prefix : list string;
  i_cmd : string
}.

Inductive event : Type :=
| ELog (lvl : level) (msg : string) (args : list string)
| EMkdir (p : path)
| EOpen (p : path)
| EWrite (p : path) (data : string)
| ERun (i : invocation)
| EPost (url user password : string)
| EPrompt (msg : string)
| EReset
| EBrowser (url : string)
| EStart (label : string)
| EDone (label : string).

Definition is_log (e : event) : bool :=
  match e with ELog _ _ _ => true | _ => false end.

(** The events that act on ExternalState: file and directory writes and
    external commands. *)
Definition is_side_effect (e : event) : bool :=
  match e with
  | EMkdir _ | EOpen _ | EWrite _ _ | ERun _ => true
  | _ => false
  end.

Definition is_post (e : event) : bool :=
  match e with EPost _ _ _ => true | _ => false end.

Definition is_prompt (e : event) : bool :=
  match e with EPrompt _ => true | _ => false end.

Definition is_reset (e : event) : bool :=
  match e with EReset => true | _ => false end.

Definition is_write (e : event) : bool :=
  match e with EWrite _ _ => true | _ => false end.

(** The two log lines of the runner around a step. *)
Definition is_marker (e : event) : bool :=
  match e with EStart _ | EDone _ => true | _ => false end.

Definition markers (t : list event) : list event := filter is_marker t.

Definition side_effects (t : list event) : list event := filter is_side_effect t.

(** The answer of the remote endpoint ([requests.Response]). *)
Record response : Type := Response {
  status_code : Z;
  json_body : option (gmap string string)
}.

(** [str(res)] *)
Definition str_response (r : response) : string :=
  "<Response [" +:+ pretty (status_code r) +:+ "]>".

(** ** The world *)

Record World : Type := mkWorld {
  fs : FS;
  jira_gen : nat;
  posts : nat;
  inputs : nat;
  trace : list event
}.

(** Python exceptions that the code can meet. *)
Inductive exn : Type :=
| UnexpectedExit (i : invocation)
| FileExistsError (p : path)
| FileNotFoundError (p : path)
| NotADirectoryError (p : path)
| IsADirectoryError (p : path)
| JSONDecodeError
| KeyError (k : string)
| SystemExit (code : Z).

Inductive result (A : Type) : Type :=
| Ret (a : A)
| Raise (e : exn)
| OutOfFuel.

Arguments Ret {A} a.
Arguments Raise {A} e.
Arguments OutOfFuel {A}.

(** Computations: a world in, a result and a world out. *)
Definition M (A : Type) : Type := World -> result A * World.

Definition ret {A} (a : A) : M A := fun w => (Ret a, w).

Definition raise {A} (e : exn) : M A := fun w => (Raise e, w).

Definition bind {A B} (m : M A) (k : A -> M B) : M B :=
  fun w =>
    match m w with
    | (Ret a, w') => k a w'
    | (Raise e, w') => (Raise e, w')
    | (OutOfFuel, w') => (OutOfFuel, w')
    end.

Notation "x <- m ;; k" := (bind m (fun x => k))
  (at level 100, m at next level, right associativity).
Notation "m ;; k" := (bind m (fun _ => k))
  (at level 100, right associativity).

(** [try: m  except UnexpectedExit: h  else: k] *)
Definition try_unexpected_exit {A B} (m : M A) (h : M B) (k : A -> M B) : M B :=
  fun w =>
    match m w with
    | (Ret a, w') => k a w'
    | (Raise (UnexpectedExit _), w') => h w'
    | (Raise e, w') => (Raise e, w')
    | (OutOfFuel, w') => (OutOfFuel, w')
    end.

(** [for x in l: body(x)] *)
Fixpoint for_each {A} (body : A -> M unit) (l : list A) : M unit :=
  match l with
  | [] => ret tt
  | x :: l' => body x ;; for_each body l'
  end.

Definition emit (e : event) : M unit :=
  fun w => (Ret tt, mkWorld (fs w) (jira_gen w) (posts w) (inputs w) (trace w ++ [e])).

Definition set_fs (f : FS) : M unit :=
  fun w => (Ret tt, mkWorld f (jira_gen w) (posts w) (inputs w) (trace w)).

Definition get_fs : M FS := fun w => (Ret (fs w), w).

(** ** What the module imports and does not define itself *)

(** [config.DownloadConfig] and the entries of [config.REQUIRED_REPOS]: a
    remote location and a local path relative to a base directory. *)
Record DownloadConfig : Type := mkDownloadConfig {
  remote : string;
  relative_local : path
}.

(** The constants of the [config] module, whose values the source does not
    fix. *)
Class Config : Type := {
  HOME : path;
  USER : string;
  REPO_ROOT : path;
  CONFIG_DIR : path;
  EVG_CONFIG_FILE : path;
  SSH_KEY_FILE : path;
  REQUIRED_REPOS : list DownloadConfig;
  GITHUB_SSH_HELP_URL : string;
  CLANG_FORMAT_URL : string;
  ESLINT_URL : string
}.

(** The two templates of [serverworkflowtool.templates] and the
    [actionable] decoration of [utils.log].  [evergreen_yaml_template] is
    the template's [format] applied to its two positional arguments. *)
Class Templates : Type := {
  evergreen_yaml_template : string -> string -> string;
  shell_profile_template : string;
  actionable : string -> string
}.

(** The outside as one run meets it: what an external command does to the
    filesystem ([None] when it exits with a non-zero status), what the
    remote endpoint answers to its n-th request, what the operator types at
    the n-th prompt, and the Jira credentials the operator has supplied
    after n resets. *)
Class Env : Type := {
  sh : invocation -> FS -> option FS;
  endpoint : nat -> response;
  operator : nat -> string;
  credentials : nat -> string * string;
  sudo_pwd : string
}.

Section Model.

Context {cfg : Config} {tpl : Templates} {env : Env}.

(** *** Logging: [get_logger().info/warning/error] *)

Definition log (lvl : level) (msg : string) (args : list string) : M unit :=
  emit (ELog lvl msg args).

(** Modelled from the spec: [log_multiline] of [utils/log.py] is not among
    the sources; it hands each line to the given logging function. *)
Definition log_multiline (lvl : level) (lines : list string) : M unit :=
  for_each (fun line => log lvl line []) lines.

(** Modelled from the spec: [req_input] of [utils/log.py] is not among the
    sources; it is the blocking prompt that returns the raw text typed by
    the operator. *)
Definition req_input (msg : string) : M string :=
  fun w =>
    (Ret (operator (inputs w)),
     mkWorld (fs w) (jira_gen w) (posts w) (S (inputs w)) (trace w ++ [EPrompt msg])).

(** *** The configuration object [conf = config.Config()] *)

(** Modelled from the spec: the class [config.Config] is not among the
    sources.  It holds the operator's Jira credentials;
    [reset_jira_credentials] invalidates them, so that the next read
    yields credentials collected anew. *)
Definition conf_username : M string :=
  fun w => (Ret (fst (credentials (jira_gen w))), w).

Definition conf_jira_pwd : M string :=
  fun w => (Ret (snd (credentials (jira_gen w))), w).

Definition conf_reset_jira_credentials : M unit :=
  fun w =>
    (Ret tt, mkWorld (fs w) (S (jira_gen w)) (posts w) (inputs w) (trace w ++ [EReset])).

Definition conf_get_sudo_pwd : M string := ret sudo_pwd.

(** *** [requests.post] *)

Definition requests_post (url user password : string) : M response :=
  fun w =>
    (Ret (endpoint (posts w)),
     mkWorld (fs w) (jira_gen w) (S (posts w)) (inputs w)
             (trace w ++ [EPost url user password])).

(** [res.json()] *)
Definition res_json (r : response) : M (gmap string string) :=
  match json_body r with
  | Some j => ret j
  | None => raise JSONDecodeError
  end.

(** [d[k]] on the parsed body. *)
Definition getitem (d : gmap string string) (k : string) : M string :=
  match d !! k with
  | Some v => ret v
  | None => raise (KeyError k)
  end.

(** *** Filesystem primitives *)

(** [os.mkdir(p)] *)
Definition os_mkdir (p : path) : M unit :=
  f <- get_fs ;;
  if file_above f [] p then raise (NotADirectoryError p)
  else if exists_ f p then raise (FileExistsError p)
  else if negb (exists_ f (parent p)) then raise (FileNotFoundError p)
  else (emit (EMkdir p) ;; set_fs (<[p := Entry Dir USER]> f)).

(** The handler [except OSError: if not exist_ok or not self.is_dir(): raise]
    around [os.mkdir]. *)
Definition mkdir_here (exist_ok : bool) (p : path) : M unit :=
  fun w =>
    match os_mkdir p w with
    | (Raise e, w') =>
        if exist_ok && is_dir (fs w') p then (Ret tt, w') else (Raise e, w')
    | r => r
    end.

(** [p.mkdir(parents=True, exist_ok=...)]: missing ancestors are created
    first, outermost first.  [depth] bounds the recursion by the length of
    the path. *)
Fixpoint mkdir_parents (depth : nat) (exist_ok : bool) (p : path) : M unit :=
  fun w =>
    match os_mkdir p w with
    | (Raise (FileNotFoundError q), w') =>
        match depth, p with
        | S d, _ :: _ =>
            (mkdir_parents d true (parent p) ;; mkdir_here exist_ok p) w'
        | _, _ => (Raise (FileNotFoundError q), w')
        end
    | (Raise e, w') =>
        if exist_ok && is_dir (fs w') p then (Ret tt, w') else (Raise e, w')
    | r => r
    end.

(** [p.mkdir(parents=..., exist_ok=...)] *)
Definition mkdir (parents exist_ok : bool) (p : path) : M unit :=
  if parents then mkdir_parents (length p) exist_ok p else mkdir_here exist_ok p.

(** [open(p, 'w')]: the file is created or truncated. *)
Definition open_w (p : path) : M unit :=
  f <- get_fs ;;
  if file_above f [] p then raise (NotADirectoryError p)
  else if is_dir f p then raise (IsADirectoryError p)
  else if negb (exists_ f (parent p)) then raise (FileNotFoundError p)
  else
    (emit (EOpen p) ;;
     set_fs (<[p := Entry (File "") (default USER (owner f p))]> f)).

(** [fh.write(data)] on a handle opened by [open_w]. *)
Definition fh_write (p : path) (data : string) : M unit :=
  f <- get_fs ;;
  emit (EWrite p data) ;;
  set_fs (<[p := Entry (File (default "" (read f p) +:+ data))
                       (default USER (owner f p))]> f).

(** *** The invocation context [ctx] *)

(** [ctx.run(cmd)] and [ctx.sudo(cmd, warn=False, ...)] inside the given
    [ctx.cd] and [ctx.prefix] blocks; a non-zero exit status raises
    [UnexpectedExit].  The value is the command of the result. *)
Definition invoke (i : invocation) : M string :=
  emit (ERun i) ;;
  f <- get_fs ;;
  match sh i f with
  | Some f' => set_fs f' ;; ret (i_cmd i)
  | None => raise (UnexpectedExit i)
  end.

Definition ctx_run (cwd : option path) (prefix : list string) (cmd : string) : M string :=
  invoke (Invocation false cwd prefix cmd).

Definition ctx_sudo (cmd : string) (password : string) : M string :=
  invoke (Invocation true None [] cmd).

(** *** The steps of [setupenv.py] *)

Definition dq : string := String (Ascii.ascii_of_nat 34) EmptyString.
Definition nl : string := String (Ascii.ascii_of_nat 10) EmptyString.
Definition tab : string := String (Ascii.ascii_of_nat 9) EmptyString.

Definition settings_url : string := "https://evergreen.mongodb.com/login/key".

(** The [while True] loop of [evergreen_yaml]; [fuel] bounds the number of
    iterations that the model follows. *)
Fixpoint credential_loop (fuel : nat) : M unit :=
  match fuel with
  | O => fun w => (OutOfFuel, w)
  | S fuel' =>
      user <- conf_username ;;
      pwd <- conf_jira_pwd ;;
      res <- requests_post settings_url user pwd ;;
      if negb (status_code res =? 200)%Z then
        (log Error "Failed to fetch API key from evergreen. Error: %s" [str_response res] ;;
         req_input "Press any key to retry..." ;;
         conf_reset_jira_credentials ;;
         credential_loop fuel')
      else
        (j <- res_json res ;;
         u <- getitem j "user" ;;
         k <- getitem j "api_key" ;;
         let evg_config := evergreen_yaml_template u k in
         open_w EVG_CONFIG_FILE ;;
         fh_write EVG_CONFIG_FILE evg_config)
  end.

Definition evergreen_yaml (fuel : nat) : M bool :=
  f <- get_fs ;;
  (if exists_ f EVG_CONFIG_FILE then
     (log Info "Found existing ~/.evergreen.yml, skipping adding Evergreen configuration" [] ;;
      log Info ("Please ensure your ~/.evergreen.yml was generated by this tool. If not, "
                +:+ "make sure you know what's in there") [])
   else credential_loop fuel) ;;
  ret true.

Definition ssh_stanza : string :=
  "Host github.com" +:+ nl +:+ tab +:+ "StrictHostKeyChecking no" +:+ nl.

Definition ssh_prompt : string :=
  "Opening browser for instructions to setting up ssh keys in GitHub, "
  +:+ "press any key to continue, enter " +:+ dq +:+ "skip" +:+ dq +:+ " to skip: ".

Definition ssh_rerun_msg : string :=
  "Once you've generated SSH keys and added them to GitHub, "
  +:+ "please rerun `workflow setup.macos`".

Definition ssh_keys : M unit :=
  let ssh_dir := sub HOME ".ssh" in
  mkdir false true ssh_dir ;;
  f <- get_fs ;;
  if is_file f SSH_KEY_FILE then
    (log Info "Found existing key ~/.ssh/id_rsa, skipping setting up ssh keys" [] ;;
     log Info "Please ensure your keys are added to your GitHub account" [])
  else
    (log Info "Did not find existing ssh key in ~/.ssh/id_rsa" [] ;;
     open_w (sub ssh_dir "config") ;;
     log Info "Disabling host key checking for github.com in %s" [str_path (sub ssh_dir "config")] ;;
     fh_write (sub ssh_dir "config") ssh_stanza ;;
     res <- req_input ssh_prompt ;;
     if negb (String.eqb res "skip") then
       (emit (EBrowser GITHUB_SSH_HELP_URL) ;;
        log Info (actionable ssh_rerun_msg) [] ;;
        raise (SystemExit 0))
     else log Info "Skipping adding SSH Keys to GitHub" []).

Definition clone_repos : M unit :=
  mkdir false true REPO_ROOT ;;
  log Info "Placing MongoDB Git repositories in %s" [str_path REPO_ROOT] ;;
  for_each
    (fun repo_config =>
       let repo_dir := under REPO_ROOT (relative_local repo_config) in
       f <- get_fs ;;
       if exists_ f repo_dir then
         (log Warning "Local directory %s exists." [str_path repo_dir] ;;
          log Warning "If you'd like to re-clone, please delete this directory first" [])
       else
         (let cmd := "git clone " +:+ remote repo_config +:+ " " +:+ str_path repo_dir in
          log Info cmd [] ;;
          ctx_run (Some REPO_ROOT) [] cmd ;;
          ret tt))
    REQUIRED_REPOS.

(** The value is [Some true] for Python's [True] and [None] for the
    implicit [None]. *)
Definition create_dir (d : path) : M (option bool) :=
  f <- get_fs ;;
  if exists_ f d && bool_decide (owner f d = Some USER) then
    (log Warning ("Directory " +:+ str_path d
                  +:+ " exists and is owned by the current user, skipping creation") [] ;;
     ret (Some true))
  else
    (pw <- conf_get_sudo_pwd ;;
     ctx_sudo ("mkdir -p " +:+ str_path d) pw ;;
     pw' <- conf_get_sudo_pwd ;;
     ctx_sudo ("chown " +:+ USER +:+ " " +:+ str_path d) pw' ;;
     log Info ("Created directory " +:+ str_path d) [] ;;
     ret None).

Definition _do_download (download_config : DownloadConfig) : M unit :=
  let local_path := under HOME (relative_local download_config) in
  f <- get_fs ;;
  if exists_ f local_path then
    log Warning ("File %s exists. If you'd like to re-download this "
                 +:+ "file, please delete the local copy first.") [str_path local_path]
  else
    (let cmd := "curl -o " +:+ str_rel (relative_local download_config)
                +:+ " " +:+ remote download_config in
     log Info cmd [] ;;
     ctx_run (Some HOME) [] cmd ;;
     ret tt).

Definition _download_executable_tarball
    (download_config : DownloadConfig) (default_name pretty_name : string) : M unit :=
  let bin_dir := sub HOME "bin" in
  f <- get_fs ;;
  if exists_ f (sub bin_dir pretty_name) then
    log Warning "File/Directory %s already exists. Skipping install"
        [str_path (sub bin_dir pretty_name)]
  else
    (let download_config' :=
       mkDownloadConfig (remote download_config) ["bin"; pretty_name +:+ ".tar.xz"] in
     _do_download download_config' ;;
     ctx_run (Some bin_dir) [] ("tar -xvzf " +:+ pretty_name +:+ ".tar.xz") ;;
     ctx_run (Some bin_dir) [] ("rm -f " +:+ pretty_name +:+ ".tar.xz") ;;
     ctx_run (Some bin_dir) [] ("mv " +:+ default_name +:+ " " +:+ pretty_name) ;;
     ret tt).

Definition download_clang_format : M unit :=
  let bin_dir := sub HOME "bin" in
  f <- get_fs ;;
  if exists_ f (sub bin_dir "clang-format") then
    log Warning "File %s already exists. Skipping install"
        [str_path (sub bin_dir "clang-format")]
  else
    (let dc := mkDownloadConfig CLANG_FORMAT_URL [] in
     let default_name := "clang+llvm-3.8.0-x86_64-apple-darwin" in
     let pretty_name := "llvm-3.8.0" in
     _download_executable_tarball dc default_name pretty_name ;;
     ctx_run (Some bin_dir) []
       ("ln -s " +:+ str_path (sub (sub (sub bin_dir pretty_name) "bin") "clang-format")
        +:+ " clang-format") ;;
     ret tt).

Definition download_eslint : M unit :=
  let dc := mkDownloadConfig ESLINT_URL [] in
  _download_executable_tarball dc "eslint-Darwin-x86_64" "eslint".

Definition download_evergreen : M unit :=
  let bin_dir := sub HOME "bin" in
  f <- get_fs ;;
  (if exists_ f (sub bin_dir "evergreen") then
     log Warning "File %s already exists. Skipping downloading evergreen CLI"
         [str_path (sub bin_dir "evergreen")]
   else
     _do_download
       (mkDownloadConfig "https://evergreen.mongodb.com/clients/darwin_amd64/evergreen"
                         ["bin"; "evergreen"])) ;;
  ctx_run (Some bin_dir) [] "chmod +x evergreen" ;;
  ret tt.

Definition install_githooks : M unit :=
  let hooks_dir := sub HOME ".githooks" in
  let kernel_tools_dir := sub REPO_ROOT "kernel-tools" in
  let mongo_dir := sub REPO_ROOT "mongo" in
  mkdir true true hooks_dir ;;
  f <- get_fs ;;
  (if negb (exists_ f (sub hooks_dir "mongo")) then
     (ctx_run None [] ("ln -s " +:+ str_path (sub kernel_tools_dir "githooks")
                       +:+ " " +:+ str_path (sub hooks_dir "mongo")) ;;
      ret tt)
   else ret tt) ;;
  ctx_run (Some mongo_dir) [] "source buildscripts/install-hooks -f" ;;
  let todo := actionable "TODO:" in
  log Info (todo +:+ " Please consult with your mentor on which githooks are needed. Some hooks may be") [] ;;
  log Info "      unnecessarily cumbersome for your project. You can delete any unneeded hooks in " [] ;;
  log Info "     `%s` and rerun `workflow macos.setup`"
      [str_path (sub (sub kernel_tools_dir "githooks") "pre-push")].

(** The local function [run_cmds] of [setup_mongo_repo_env], under the
    [ctx.cd] and [ctx.prefix] blocks of its call site. *)
Definition run_cmds (cwd : option path) (prefix : list string) (cmds : list string) : M unit :=
  for_each
    (fun cmd =>
       res_command <- ctx_run cwd prefix cmd ;;
       log Info "Ran cmd: %s" [res_command])
    cmds.

Definition scons_cmd : string :=
  "python buildscripts/scons.py CC=clang CXX=clang++ VARIANT_DIR=ninja  MONGO_VERSION='0.0.0' "
  +:+ "MONGO_GIT_HASH='unknown' --link-model=dynamic build.ninja".

Definition setup_mongo_repo_env : M unit :=
  let mongo_dir := sub REPO_ROOT "mongo" in
  let python3_venv_dir := "python3-venv" in
  f <- get_fs ;;
  (if negb (exists_ f (sub mongo_dir python3_venv_dir)) then
     run_cmds (Some mongo_dir) []
       ["python3 -m pip install virtualenv";
        "python3 -m virtualenv " +:+ python3_venv_dir]
   else
     log Warning "Found existing Python3 virtualenv at %s, skipping creating a new one"
         [str_path (sub mongo_dir python3_venv_dir)]) ;;
  f' <- get_fs ;;
  (let install_cmds :=
     ["pip install -r etc/pip/dev-requirements.txt"; "pip install regex"]
     ++ (if negb (exists_ f' (sub mongo_dir "build.ninja")) then [scons_cmd] else []) in
   run_cmds (Some mongo_dir) ["source python3-venv/bin/activate"] install_cmds) ;;
  run_cmds (Some mongo_dir) [] ["ninja compiledb"].

Definition install_ninja : M unit :=
  try_unexpected_exit
    (ctx_run None [] "ninja --version")
    (ctx_run None [] "brew install ninja" ;; ret tt)
    (fun _ => log Warning "ninja appears to be already installed, skipping install" []).

Definition install_shell_profile : M unit :=
  mkdir true true CONFIG_DIR ;;
  let profile := sub CONFIG_DIR "profile" in
  open_w profile ;;
  fh_write profile shell_profile_template ;;
  let todo := actionable "TODO:" in
  log Info (todo +:+ " Please add the following line to your shell config file, if you haven't already ") [] ;;
  log Info "      done so. The default shell config file is ~/.profile. If you're using a" [] ;;
  log Info "      different shell, e.g. zsh, you may have a different config file, e.g. ~/.zshrc" [] ;;
  log Info "" [] ;;
  log Info (actionable "      source %s") [str_path profile].

Definition post_task_instructions : M unit :=
  let lines :=
    [actionable ("Note on Using " +:+ dq +:+ "compiledb" +:+ dq +:+ ":");
     "    A Clang JSON Compilation Database (compiledb) has been generated for the mongo repository.";
     "    It enables features like jump to definition and semantic code completion in code editors. Please refer";
     "    to the following web page on how to integrate compiledb with your favorite editor";
     "";
     "    https://sarcasm.github.io/notes/dev/compilation-database.html#text-editors-and-ides";
     "";
     "    When you switch branches or add/remove files, compiledb needs to be updated by running `ninja compiledb`";
     "";
     "    If you'd like to use an editor that " +:+ dq +:+ "just works" +:+ dq
       +:+ ", The CLion IDE is a good option. You just need";
     "    to install it and open the " +:+ dq +:+ "mongo" +:+ dq
       +:+ " directory. Code completion and jumping to definitions will";
     "    automatically work";
     "";
     "    To install CLion, run: `brew cask install clion`"] in
  log_multiline Info lines.

(** *** The runner and the ordered sequence *)

(** A step of the sequence: a zero-argument action and its label. *)
Definition Step : Type := M unit * string.

(** Modelled from the spec: [log_func] of [utils/log.py] is not among the
    sources.  Given a step it logs the label as starting ([EStart]),
    invokes the action and logs completion ([EDone]); it does not catch
    exceptions. *)
Definition log_func (func : M unit) (label : string) : M unit :=
  emit (EStart label) ;;
  func ;;
  emit (EDone label).

(** [for func in funcs: log_func(func[0], func[1])] *)
Definition run_steps (funcs : list Step) : M unit :=
  for_each (fun func => log_func (fst func) (snd func)) funcs.

(** A lambda of the list calls a function and drops its value. *)
Definition call {A} (m : M A) : M unit := m ;; ret tt.

Definition funcs (fuel : nat) : list Step :=
  [ (ssh_keys, "Configure SSH Keys");
    (call (create_dir ["data"]), "Create MongoDB Data Directory");
    (call (create_dir ["opt"; "mongodbtoolchain"]), "Create MongoDB Toolchain Directory");
    (call (create_dir (sub HOME "bin")), "Create User bin Directory");
    (call (evergreen_yaml fuel), "Configure Evergeen");
    (clone_repos, "Clone MongoDB Repositories");
    (download_clang_format, "Download clang-format");
    (download_eslint, "Download eslint");
    (download_evergreen, "Download evergreen CLI");
    (install_ninja, "Install ninja");
    (setup_mongo_repo_env, "Setup the mongo Repository");
    (install_githooks, "Install Git Hooks");
    (install_shell_profile, "Install Shell Profile");
    (post_task_instructions, "Post Setup Instructions") ].

Definition macos (fuel : nat) : M unit := run_steps (funcs fuel).

End Model.

(** ** The states of the orchestration *)

Inductive RunState : Type :=
| Finished
| HaltedForManualAction
| Aborted
| Running.

(** Where a run ends: normal return of the last step, a [sys.exit(0)]
    raised by a step, or any other exception that nothing catches.  A run
    that the model could not follow to its end is still [Running]. *)
Definition final_state {A} (r : result A) : RunState :=
  match r with
  | Ret _ => Finished
  | Raise (SystemExit 0) => HaltedForManualAction
  | Raise _ => Aborted
  | OutOfFuel => Running
  end.

(** The exit status of the process. *)
Definition exit_status {A} (r : result A) : option Z :=
  match r with
  | Ret _ => Some 0%Z
  | Raise (SystemExit c) => Some c
  | Raise _ => Some 1%Z
  | OutOfFuel => None
  end.

(** The world [w] after more interactions [d] that left the filesystem and
    the counters alone. *)
Definition logged (w : World) (d : list event) : World :=
  mkWorld (fs w) (jira_gen w) (posts w) (inputs w) (trace w ++ d).

(** The interactions of one failed attempt of the credential exchange,
    made with the credentials of generation [g] as request number [p]: the
    request, the error report, the blocking prompt and the reset. *)
Definition retry_round `{Env} (g p : nat) : list event :=
  [EPost settings_url (fst (credentials g)) (snd (credentials g));
   ELog Error "Failed to fetch API key from evergreen. Error: %s" [str_response (endpoint p)];
   EPrompt "Press any key to retry...";
   EReset].

(** [n] failed attempts in a row. *)
Fixpoint retry_rounds `{Env} (g p n : nat) : list event :=
  match n with
  | O => []
  | S n' => retry_round g p ++ retry_rounds (S g) (S p) n'
  end.

(** The filesystem after [data] has been written to a file opened for
    writing at [p]: a new file belongs to the user, an existing one keeps
    its owner. *)
Definition written `{Config} (f : FS) (p : path) (data : string) : FS :=
  <[p := Entry (File data) (default USER (owner f p))]> f.

(** [open(p, 'w')] can succeed: no regular file sits above [p], [p] is not
    a directory and its parent exists. *)
Definition writable (f : FS) (p : path) : bool :=
  negb (file_above f [] p) && negb (is_dir f p) && exists_ f (parent p).

(** What the runner logs around a step that returns. *)
Definition step_markers (s : Step) : list event := [EStart (snd s); EDone (snd s)].

(** Every interaction of [m] is appended to the trace and satisfies [P]. *)
Definition emits (P : event -> Prop) {A} (m : M A) : Prop :=
  forall w r w', m w = (r, w') -> exists d, trace w' = trace w ++ d /\ Forall P d.

(** [m] writes none of the runner's log lines. *)
Definition quiet {A} (m : M A) : Prop := emits (fun e => is_marker e = false) m.

(** [p.mkdir(exist_ok=True)] can succeed: [p] is a directory already, or
    it is absent, its parent exists and no regular file sits above it. *)
Definition can_mkdir (f : FS) (p : path) : bool :=
  is_dir f p || (negb (file_above f [] p) && negb (exists_ f p) && exists_ f (parent p)).

(** The filesystem after a successful [p.mkdir(exist_ok=True)], and what
    the call did. *)
Definition made_dir `{Config} (f : FS) (p : path) : FS :=
  if is_dir f p then f else <[p := Entry Dir USER]> f.

Definition mkdir_events (f : FS) (p : path) : list event :=
  if is_dir f p then [] else [EMkdir p].

(** The ssh configuration file can be written once [~/.ssh] is there. *)
Definition ssh_ready `{Config} (f : FS) : bool :=
  can_mkdir f (sub HOME ".ssh")
  && negb (file_above f [] (sub (sub HOME ".ssh") "config"))
  && negb (is_dir f (sub (sub HOME ".ssh") "config")).

(** What [ssh_keys] does up to and including its prompt when it finds no
    key file. *)
Definition ssh_setup_events `{Config} (f : FS) : list event :=
  mkdir_events f (sub HOME ".ssh")
  ++ [ELog Info "Did not find existing ssh key in ~/.ssh/id_rsa" [];
      EOpen (sub (sub HOME ".ssh") "config");
      ELog Info "Disabling host key checking for github.com in %s"
           [str_path (sub (sub HOME ".ssh") "config")];
      EWrite (sub (sub HOME ".ssh") "config") ssh_stanza;
      EPrompt ssh_prompt].

(** What it does after the operator's [answer]. *)
Definition ssh_answer_events `{Config} `{Templates} (answer : string) : list event :=
  if String.eqb answer "skip"
  then [ELog Info "Skipping adding SSH Keys to GitHub" []]
  else [EBrowser GITHUB_SSH_HELP_URL; ELog Info (actionable ssh_rerun_msg) []].

(** *** The guarded steps and their guards *)

Definition is_warning (e : event) : bool :=
  match e with ELog Warning _ _ => true | _ => false end.

Definition is_info (e : event) : bool :=
  match e with ELog Info _ _ => true | _ => false end.

Definition warnings (t : list event) : list event := filter is_warning t.

(** The interactions that led from [w] to [w']. *)
Definition since (w w' : World) : list event := drop (length (trace w)) (trace w').

(** The commands that some step runs whatever it finds. *)
Definition chmod_evergreen `{Config} : invocation :=
  Invocation false (Some (sub HOME "bin")) [] "chmod +x evergreen".

Definition ninja_version : invocation :=
  Invocation false None [] "ninja --version".

Definition pip_requirements `{Config} : invocation :=
  Invocation false (Some (sub REPO_ROOT "mongo")) ["source python3-venv/bin/activate"]
             "pip install -r etc/pip/dev-requirements.txt".

Definition pip_regex `{Config} : invocation :=
  Invocation false (Some (sub REPO_ROOT "mongo")) ["source python3-venv/bin/activate"]
             "pip install regex".

Definition ninja_compiledb `{Config} : invocation :=
  Invocation false (Some (sub REPO_ROOT "mongo")) [] "ninja compiledb".

Definition install_hooks `{Config} : invocation :=
  Invocation false (Some (sub REPO_ROOT "mongo")) [] "source buildscripts/install-hooks -f".

(** The steps of the sequence that test for an artifact before acting. *)
Inductive step_id : Type :=
| SshKeys
| CreateDir (d : path)
| EvergreenYaml
| CloneRepos
| DownloadClangFormat
| DownloadEslint
| DownloadEvergreen
| InstallNinja
| SetupMongoRepoEnv.

Definition action `{Config} `{Templates} `{Env} (s : step_id) (fuel : nat) : M unit :=
  match s with
  | SshKeys => ssh_keys
  | CreateDir d => call (create_dir d)
  | EvergreenYaml => call (evergreen_yaml fuel)
  | CloneRepos => clone_repos
  | DownloadClangFormat => download_clang_format
  | DownloadEslint => download_eslint
  | DownloadEvergreen => download_evergreen
  | InstallNinja => install_ninja
  | SetupMongoRepoEnv => setup_mongo_repo_env
  end.

(** The test of each step, as the step evaluates it: the key file is a
    regular file (in an existing [~/.ssh]), the directory exists and
    belongs to the user, the credential file exists, every repository
    directory exists (under an existing root), the downloaded file exists,
    [ninja --version] succeeds, the virtualenv exists. *)
Definition guard `{Config} `{Env} (s : step_id) (f : FS) : bool :=
  match s with
  | SshKeys => is_dir f (sub HOME ".ssh") && is_file f SSH_KEY_FILE
  | CreateDir d => exists_ f d && bool_decide (owner f d = Some USER)
  | EvergreenYaml => exists_ f EVG_CONFIG_FILE
  | CloneRepos =>
      is_dir f REPO_ROOT
      && forallb (fun rc => exists_ f (under REPO_ROOT (relative_local rc))) REQUIRED_REPOS
  | DownloadClangFormat => exists_ f (sub (sub HOME "bin") "clang-format")
  | DownloadEslint => exists_ f (sub (sub HOME "bin") "eslint")
  | DownloadEvergreen => exists_ f (sub (sub HOME "bin") "evergreen")
  | InstallNinja => bool_decide (is_Some (sh ninja_version f))
  | SetupMongoRepoEnv => exists_ f (sub (sub REPO_ROOT "mongo") "python3-venv")
  end.

(** The steps whose test, once true, keeps them from doing anything but
    logging. *)
Definition skips_everything (s : step_id) : bool :=
  match s with
  | DownloadEvergreen | InstallNinja | SetupMongoRepoEnv => false
  | _ => true
  end.

(** The two warning lines of [clone_repos] for a repository that is
    already there. *)
Definition clone_skip_lines `{Config} (rc : DownloadConfig) : list event :=
  [ELog Warning "Local directory %s exists." [str_path (under REPO_ROOT (relative_local rc))];
   ELog Warning "If you'd like to re-clone, please delete this directory first" []].

(** [p.mkdir(parents=True, exist_ok=True)] can succeed: neither [p] nor
    anything above it is a regular file. *)
Definition no_file_on (f : FS) (p : path) : bool :=
  negb (file_above f [] p) && negb (is_file f p).

(** [f'] is [f] with new directories of the user, all of them on the way
    to [p]. *)
Definition only_new_dirs `{Config} (p : path) (f f' : FS) : Prop :=
  forall q, f' !! q = f !! q
            \/ (f !! q = None /\ f' !! q = Some (Entry Dir USER) /\ exists k, q = take k p).

(** Whatever [m] goes on to do, it first does [pre]. *)
Definition begins (pre : list event) {A} (m : M A) : Prop :=
  forall w, exists r w' d, m w = (r, w') /\ trace w' = trace w ++ pre ++ d.

(** The closing log lines of [install_shell_profile]. *)
Definition profile_instructions `{Config} `{Templates} : list event :=
  [ELog Info (actionable "TODO:"
              +:+ " Please add the following line to your shell config file, if you haven't already ") [];
   ELog Info "      done so. The default shell config file is ~/.profile. If you're using a" [];
   ELog Info "      different shell, e.g. zsh, you may have a different config file, e.g. ~/.zshrc" [];
   ELog Info "" [];
   ELog Info (actionable "      source %s") [str_path (sub CONFIG_DIR "profile")]].

(** *** A machine that is already set up *)

(** Every test of the sequence succeeds: the ssh key, the three
    directories, the credential file, the repositories, the three tools,
    the virtualenv and [build.ninja], the hooks directory with its link,
    and the configuration directory. *)
Definition provisioned `{Config} `{Env} (f : FS) : bool :=
  guard SshKeys f
  && guard (CreateDir ["data"]) f
  && guard (CreateDir ["opt"; "mongodbtoolchain"]) f
  && guard (CreateDir (sub HOME "bin")) f
  && guard EvergreenYaml f
  && guard CloneRepos f
  && guard DownloadClangFormat f
  && guard DownloadEslint f
  && guard DownloadEvergreen f
  && guard SetupMongoRepoEnv f
  && exists_ f (sub (sub REPO_ROOT "mongo") "build.ninja")
  && is_dir f (sub HOME ".githooks")
  && exists_ f (sub (sub HOME ".githooks") "mongo")
  && is_dir f CONFIG_DIR
  && no_file_on f CONFIG_DIR.

(** The commands that no test keeps the sequence from running. *)
Definition unguarded_commands `{Config} : list invocation :=
  [chmod_evergreen; ninja_version; pip_requirements; pip_regex; ninja_compiledb;
   install_hooks].

(** What a run on a machine that is already set up does to ExternalState
    all the same. *)
Definition rerun_effects `{Config} `{Templates} : list event :=
  map ERun unguarded_commands
  ++ [EOpen (sub CONFIG_DIR "profile");
      EWrite (sub CONFIG_DIR "profile") shell_profile_template].

(** What [run_cmds] leaves in the trace for a command that succeeds. *)
Definition ran (cwd : option path) (prefix : list string) (cmd : string) : list event :=
  [ERun (Invocation false cwd prefix cmd); ELog Info "Ran cmd: %s" [cmd]].

(** What the runner leaves in the trace for a step that did [d]. *)
Definition step_trace (sd : Step * list event) : list event :=
  [EStart (snd (fst sd))] ++ snd sd ++ [EDone (snd (fst sd))].

(** ** The commands of the remaining branches *)

(** The two privileged commands of [create_dir]. *)
Definition sudo_mkdir (d : path) : invocation :=
  Invocation true None [] ("mkdir -p " +:+ str_path d).

Definition sudo_chown `{Config} (d : path) : invocation :=
  Invocation true None [] ("chown " +:+ USER +:+ " " +:+ str_path d).

Definition brew_install_ninja : invocation :=
  Invocation false None [] "brew install ninja".

(** The download of [_do_download]. *)
Definition curl `{Config} (dc : DownloadConfig) : invocation :=
  Invocation false (Some HOME) []
             ("curl -o " +:+ str_rel (relative_local dc) +:+ " " +:+ remote dc).

(** The three commands by which [_download_executable_tarball] unpacks. *)
Definition unpack `{Config} (default_name pretty_name : string) : list invocation :=
  [Invocation false (Some (sub HOME "bin")) [] ("tar -xvzf " +:+ pretty_name +:+ ".tar.xz");
   Invocation false (Some (sub HOME "bin")) [] ("rm -f " +:+ pretty_name +:+ ".tar.xz");
   Invocation false (Some (sub HOME "bin")) [] ("mv " +:+ default_name +:+ " " +:+ pretty_name)].

Definition link_clang_format `{Config} : invocation :=
  Invocation false (Some (sub HOME "bin")) []
    ("ln -s " +:+ str_path (sub (sub (sub (sub HOME "bin") "llvm-3.8.0") "bin") "clang-format")
     +:+ " clang-format").

Definition evergreen_download : DownloadConfig :=
  mkDownloadConfig "https://evergreen.mongodb.com/clients/darwin_amd64/evergreen"
                   ["bin"; "evergreen"].

Definition link_githooks `{Config} : invocation :=
  Invocation false None []
    ("ln -s " +:+ str_path (sub (sub REPO_ROOT "kernel-tools") "githooks")
     +:+ " " +:+ str_path (sub (sub HOME ".githooks") "mongo")).

Definition git_clone `{Config} (rc : DownloadConfig) : invocation :=
  Invocation false (Some REPO_ROOT) []
    ("git clone " +:+ remote rc +:+ " " +:+ str_path (under REPO_ROOT (relative_local rc))).

(** The commands of [setup_mongo_repo_env] before the [pip install]s. *)
Definition venv_commands `{Config} : list invocation :=
  [Invocation false (Some (sub REPO_ROOT "mongo")) [] "python3 -m pip install virtualenv";
   Invocation false (Some (sub REPO_ROOT "mongo")) [] "python3 -m virtualenv python3-venv"].

Definition scons_build_ninja `{Config} : invocation :=
  Invocation false (Some (sub REPO_ROOT "mongo")) ["source python3-venv/bin/activate"] scons_cmd.

(** The filesystem after the commands [cmds] have all succeeded, one after
    the other; [None] when one of them fails. *)
Fixpoint sh_all `{Env} (cmds : list invocation) (f : FS) : option FS :=
  match cmds with
  | [] => Some f
  | i :: cmds' =>
      match sh i f with
      | Some f' => sh_all cmds' f'
      | None => None
      end
  end.

(** What [run_cmds] leaves in the trace for an invocation that succeeds. *)
Definition ran_invocation (i : invocation) : list event :=
  [ERun i; ELog Info "Ran cmd: %s" [i_cmd i]].


(** *** What the sequence may do *)

(** The files that the tool itself opens for writing. *)
Definition written_files `{Config} : list path :=
  [EVG_CONFIG_FILE; sub (sub HOME ".ssh") "config"; sub CONFIG_DIR "profile"].

Definition writes_ok `{Config} (e : event) : Prop :=
  match e with
  | EOpen p | EWrite p _ => In p written_files
  | _ => True
  end.

(** The privileged commands of the sequence. *)
Definition sudo_commands `{Config} (ds : list path) : list invocation :=
  flat_map (fun d => [sudo_mkdir d; sudo_chown d]) ds.

Definition sudo_ok `{Config} (ds : list path) (e : event) : Prop :=
  match e with
  | ERun i => i_sudo i = true -> In i (sudo_commands ds)
  | _ => True
  end.

(** The exchanges with the operator and the network. *)
Definition interaction_ok `{Config} (e : event) : Prop :=
  match e with
  | EPrompt msg => msg = ssh_prompt \/ msg = "Press any key to retry..."
  | EPost url _ _ => url = settings_url
  | EBrowser url => url = GITHUB_SSH_HELP_URL
  | _ => True
  end.

(** No exchange with the operator or the network at all. *)
Definition unattended (e : event) : Prop :=
  match e with
  | EPrompt _ | EPost _ _ _ | EBrowser _ | EReset => False
  | _ => True
  end.

(** What [clone_repos] may do: log, create the root of the repositories,
    clone a required repository. *)
Definition clone_event `{Config} (e : event) : Prop :=
  match e with
  | ELog _ _ _ => True
  | EMkdir p => p = REPO_ROOT
  | ERun i => exists rc, In rc REQUIRED_REPOS /\ i = git_clone rc
  | _ => False
  end.

(** ** A concrete machine *)

Definition home : path := ["Users"; "dev"].

Definition example_config : Config := {|
  HOME := home;
  USER := "dev";
  REPO_ROOT := home ++ ["mongodb"];
  CONFIG_DIR := home ++ [".config"; "server-workflow-tool"];
  EVG_CONFIG_FILE := home ++ [".evergreen.yml"];
  SSH_KEY_FILE := home ++ [".ssh"; "id_rsa"];
  REQUIRED_REPOS :=
    [mkDownloadConfig "git@github.com:mongodb/mongo.git" ["mongo"];
     mkDownloadConfig "git@github.com:10gen/kernel-tools.git" ["kernel-tools"]];
  GITHUB_SSH_HELP_URL := "https://help.github.com/articles/connecting-to-github-with-ssh";
  CLANG_FORMAT_URL := "https://example.org/clang+llvm-3.8.0-x86_64-apple-darwin.tar.xz";
  ESLINT_URL := "https://example.org/eslint-Darwin-x86_64.tar.gz"
|}.

Definition example_templates : Templates := {|
  evergreen_yaml_template u k := "user: " +:+ u +:+ nl +:+ "api_key: " +:+ k +:+ nl;
  shell_profile_template := "export PATH=$HOME/bin:$PATH" +:+ nl;
  actionable s := s
|}.

Definition issued_key : gmap string string :=
  <["user" := "dev"]> (<["api_key" := "0123abcd"]> ∅).

(** The endpoint refuses two requests and accepts the third; the operator
    types [answer] at every prompt; every command succeeds and leaves the
    filesystem as it is, except that [sudo] is refused when [sudo_ok] is
    false. *)
Definition scripted_env (answer : string) (sudo_ok : bool) : Env := {|
  sh i f := if i_sudo i && negb sudo_ok then None else Some f;
  endpoint n := if Nat.ltb n 2 then Response 401 None else Response 200 (Some issued_key);
  operator _ := answer;
  credentials n := ("dev", "secret" +:+ pretty n);
  sudo_pwd := "sudo-secret"
|}.

(** An endpoint that never accepts. *)
Definition refusing_env : Env := {|
  sh _ f := Some f;
  endpoint _ := Response 401 None;
  operator _ := "";
  credentials n := ("dev", "secret" +:+ pretty n);
  sudo_pwd := "sudo-secret"
|}.

Definition dir_of (o : string) : entry := Entry Dir o.
Definition file_of (o c : string) : entry := Entry (File c) o.

(** A machine on which nothing has been set up: the home directory only. *)
Definition fresh_fs : FS :=
  list_to_map [(["Users"], dir_of "root"); (home, dir_of "dev")].

Definition fresh_world : World := mkWorld fresh_fs 0 0 0 [].

(** The same machine with an ssh key. *)
Definition keyed_world : World :=
  mkWorld (<[home ++ [".ssh"; "id_rsa"] := file_of "dev" "PRIVATE KEY"]>
             (<[home ++ [".ssh"] := dir_of "dev"]> fresh_fs))
          0 0 0 [].

(** A machine on which everything is in place; the profile file holds
    something of the user's own. *)
Definition ready_fs : FS :=
  list_to_map
    [(["Users"], dir_of "root");
     (home, dir_of "dev");
     (home ++ [".ssh"], dir_of "dev");
     (home ++ [".ssh"; "id_rsa"], file_of "dev" "PRIVATE KEY");
     (["data"], dir_of "dev");
     (["opt"], dir_of "root");
     (["opt"; "mongodbtoolchain"], dir_of "dev");
     (home ++ ["bin"], dir_of "dev");
     (home ++ [".evergreen.yml"], file_of "dev" "user: dev");
     (home ++ ["mongodb"], dir_of "dev");
     (home ++ ["mongodb"; "mongo"], dir_of "dev");
     (home ++ ["mongodb"; "kernel-tools"], dir_of "dev");
     (home ++ ["bin"; "clang-format"], file_of "dev" "");
     (home ++ ["bin"; "eslint"], dir_of "dev");
     (home ++ ["bin"; "evergreen"], file_of "dev" "");
     (home ++ ["mongodb"; "mongo"; "python3-venv"], dir_of "dev");
     (home ++ ["mongodb"; "mongo"; "build.ninja"], file_of "dev" "");
     (home ++ [".githooks"], dir_of "dev");
     (home ++ [".githooks"; "mongo"], dir_of "dev");
     (home ++ [".config"], dir_of "dev");
     (home ++ [".config"; "server-workflow-tool"], dir_of "dev");
     (home ++ [".config"; "server-workflow-tool"; "profile"], file_of "dev" "alias ll='ls -l'")].

Definition ready_world : World := mkWorld ready_fs 0 0 0 [].

(** The world in which a first run on the ready machine ends. *)
Definition after_first_run : World :=
  snd (@macos example_config example_templates (scripted_env "" true) 1 ready_world).

(** The world in which the ssh step of a run on the machine with a key
    ends. *)
Definition after_ssh_step : World :=
  snd (@run_steps
         (take 1 (@funcs example_config example_templates (scripted_env "" false) 1))
         keyed_world).



(** The fresh machine with a [/data] that belongs to root. *)
Definition foreign_data_world : World :=
  mkWorld (<[["data"] := dir_of "root"]> fresh_fs) 0 0 0 [].

(** The fresh machine with a [bin] directory that holds the tarball of
    eslint and the unpacked llvm, and nothing else. *)
Definition half_done_world : World :=
  mkWorld (<[home ++ ["bin"; "llvm-3.8.0"] := dir_of "dev"]>
             (<[home ++ ["bin"; "eslint.tar.xz"] := file_of "dev" "tarball"]>
                (<[home ++ ["bin"] := dir_of "dev"]> fresh_fs)))
          0 0 0 [].

(** A machine without the home directory. *)
Definition bare_world : World := mkWorld ∅ 0 0 0 [].

Section Proofs.

Context {cfg : Config} {tpl : Templates} {env : Env}.

(** ** The credential step *)

Lemma evergreen_yaml_found_file (fuel : nat) (w : World) :
  exists_ (fs w) EVG_CONFIG_FILE = true ->
  evergreen_yaml fuel w =
  (Ret true,
   logged w [ELog Info "Found existing ~/.evergreen.yml, skipping adding Evergreen configuration" [];
             ELog Info ("Please ensure your ~/.evergreen.yml was generated by this tool. If not, "
                        +:+ "make sure you know what's in there") []]).
Proof.
  intros Hex. unfold evergreen_yaml, bind, get_fs. rewrite Hex.
  unfold log, emit, ret, logged. simpl. by rewrite <- !app_assoc.
Qed.

(** C6: when the credential file already exists, [evergreen_yaml] returns
    [True] after two info lines, the second of which asks the operator to
    verify the file; it sends no request, never prompts, and leaves the
    filesystem (and so the existing credential file) as it was. *)
Theorem evergreen_yaml_existing_file (fuel : nat) (w : World) :
  exists_ (fs w) EVG_CONFIG_FILE = true ->
  let d := [ELog Info "Found existing ~/.evergreen.yml, skipping adding Evergreen configuration" [];
            ELog Info ("Please ensure your ~/.evergreen.yml was generated by this tool. If not, "
                       +:+ "make sure you know what's in there") []] in
  evergreen_yaml fuel w = (Ret true, logged w d)
  /\ fs (logged w d) = fs w
  /\ read (fs (logged w d)) EVG_CONFIG_FILE = read (fs w) EVG_CONFIG_FILE
  /\ posts (logged w d) = posts w
  /\ inputs (logged w d) = inputs w
  /\ filter is_post d = []
  /\ filter is_prompt d = []
  /\ side_effects d = [].
Proof.
  intros Hex d. repeat split. by apply evergreen_yaml_found_file.
Qed.

(** *** Files *)

Lemma stat_nonroot (f : FS) (p : path) : p <> [] -> stat f p = f !! p.
Proof. by destruct p. Qed.

Lemma exists_false_nonroot (f : FS) (p : path) : exists_ f p = false -> p <> [].
Proof. by destruct p. Qed.

Lemma is_dir_false_nonroot (f : FS) (p : path) : is_dir f p = false -> p <> [].
Proof. by destruct p. Qed.

Lemma read_written (f : FS) (p : path) (data : string) :
  p <> [] -> read (written f p data) p = Some data.
Proof.
  intros Hp. unfold read, written. rewrite stat_nonroot by done.
  by rewrite lookup_insert_eq.
Qed.

Lemma owner_written (f : FS) (p : path) (data : string) :
  p <> [] -> owner (written f p data) p = Some (default USER (owner f p)).
Proof.
  intros Hp. unfold owner, written. rewrite stat_nonroot by done.
  by rewrite lookup_insert_eq.
Qed.

Lemma written_written (f : FS) (p : path) (c data : string) :
  p <> [] -> written (written f p c) p data = written f p data.
Proof.
  intros Hp. unfold written at 1. rewrite owner_written by done. simpl.
  unfold written. by rewrite insert_insert_eq.
Qed.

Lemma open_w_ok (p : path) (w : World) :
  writable (fs w) p = true ->
  open_w p w =
  (Ret tt, mkWorld (written (fs w) p "") (jira_gen w) (posts w) (inputs w)
                   (trace w ++ [EOpen p])).
Proof.
  unfold writable. intros [[Hab Hd]%andb_prop He]%andb_prop.
  apply negb_true_iff in Hab, Hd.
  unfold open_w, bind, get_fs. by rewrite Hab, Hd, He.
Qed.

Lemma fh_write_opened (p : path) (c data : string) (f : FS) (g n i : nat) (t : list event) :
  p <> [] ->
  fh_write p data (mkWorld (written f p c) g n i t) =
  (Ret tt, mkWorld (written f p (c +:+ data)) g n i (t ++ [EWrite p data])).
Proof.
  intros Hp. unfold fh_write, bind, get_fs, emit, set_fs; simpl.
  rewrite read_written, owner_written by done. simpl.
  unfold written. by rewrite insert_insert_eq.
Qed.

(** *** The credential exchange *)

(** One failed attempt: the loop goes round again in a world with one more
    request, one more prompt answered and the credentials reset. *)
Lemma credential_loop_failure (fuel : nat) (w : World) :
  status_code (endpoint (posts w)) <> 200%Z ->
  credential_loop (S fuel) w =
  credential_loop fuel
    (mkWorld (fs w) (S (jira_gen w)) (S (posts w)) (S (inputs w))
             (trace w ++ retry_round (jira_gen w) (posts w))).
Proof.
  intros Hne. destruct w as [f g p i t]; simpl in *.
  unfold bind, conf_username, conf_jira_pwd, requests_post; simpl.
  destruct (Z.eqb_spec (status_code (endpoint p)) 200) as [|_]; [done|]. simpl.
  unfold retry_round. by rewrite <- !app_assoc.
Qed.

Lemma credential_loop_failures (n fuel : nat) (w : World) :
  (forall i, i < n -> status_code (endpoint (posts w + i)) <> 200%Z) ->
  credential_loop (n + fuel) w =
  credential_loop fuel
    (mkWorld (fs w) (jira_gen w + n) (posts w + n) (inputs w + n)
             (trace w ++ retry_rounds (jira_gen w) (posts w) n)).
Proof.
  revert w. induction n as [|n IH]; intros w Hfail.
  - destruct w; simpl. by rewrite !Nat.add_0_r, app_nil_r.
  - replace (S n + fuel) with (S (n + fuel)) by lia.
    rewrite credential_loop_failure.
    2:{ specialize (Hfail 0). rewrite Nat.add_0_r in Hfail. apply Hfail. lia. }
    rewrite IH; simpl.
    + rewrite <- !app_assoc. do 3 f_equal; lia.
    + intros i Hi. simpl. replace (S (posts w + i)) with (posts w + S i) by lia.
      apply Hfail. lia.
Qed.

(** The branch taken on status 200 ends within the iteration. *)
Lemma credential_loop_success_ends (fuel : nat) (w : World) :
  status_code (endpoint (posts w)) = 200%Z ->
  fst (credential_loop (S fuel) w) <> OutOfFuel.
Proof.
  intros Hok. destruct w as [f g p i t]; simpl in *.
  unfold bind, conf_username, conf_jira_pwd, requests_post; simpl.
  rewrite Hok; simpl.
  unfold res_json. destruct (json_body (endpoint p)) as [j|]; simpl; [|done].
  unfold getitem.
  destruct (j !! "user") as [u|]; simpl; [|done].
  destruct (j !! "api_key") as [k|]; simpl; [|done].
  unfold open_w, fh_write, bind, get_fs; simpl.
  repeat (case_match; simpl; try done).
Qed.

Lemma credential_loop_out_of_fuel (fuel : nat) (w : World) :
  fst (credential_loop fuel w) <> OutOfFuel ->
  exists n, n < fuel /\ status_code (endpoint (posts w + n)) = 200%Z.
Proof.
  revert w. induction fuel as [|fuel IH]; intros w Hend; [done|].
  destruct (Z.eq_dec (status_code (endpoint (posts w))) 200) as [Hok|Hne].
  - exists 0. rewrite Nat.add_0_r. split; [lia|done].
  - rewrite credential_loop_failure in Hend by done.
    apply IH in Hend as (n & Hn & Hok). simpl in Hok.
    exists (S n). split; [lia|]. by replace (posts w + S n) with (S (posts w + n)) by lia.
Qed.

Lemma credential_loop_enough_fuel (n : nat) :
  forall (w : World) (fuel : nat),
  status_code (endpoint (posts w + n)) = 200%Z ->
  n < fuel ->
  fst (credential_loop fuel w) <> OutOfFuel.
Proof.
  induction n as [|n IH]; intros w fuel Hok Hfuel;
    (destruct fuel as [|fuel]; [lia|]).
  - rewrite Nat.add_0_r in Hok. by apply credential_loop_success_ends.
  - destruct (Z.eq_dec (status_code (endpoint (posts w))) 200) as [Hok0|Hne].
    + by apply credential_loop_success_ends.
    + rewrite credential_loop_failure by done.
      apply IH; simpl; [|lia].
      by replace (S (posts w + n)) with (posts w + S n) by lia.
Qed.

(** C7: the loop ends exactly when some request is answered with status
    200.  If the (n+1)-th request is, any bound above [n] on the number of
    iterations is enough for the loop to end; if none is, then after any
    number [fuel] of iterations the loop is still going, having sent
    [fuel] requests, asked [fuel] times for a key press and reset the
    credentials [fuel] times: there is no exit for giving up. *)
Theorem credential_loop_ends_iff_success (w : World) :
  ((exists fuel, fst (credential_loop fuel w) <> OutOfFuel)
   <-> (exists n, status_code (endpoint (posts w + n)) = 200%Z))
  /\ (forall n fuel,
        status_code (endpoint (posts w + n)) = 200%Z -> n < fuel ->
        fst (credential_loop fuel w) <> OutOfFuel)
  /\ ((forall n, status_code (endpoint (posts w + n)) <> 200%Z) ->
      forall fuel,
        credential_loop fuel w =
        (OutOfFuel,
         mkWorld (fs w) (jira_gen w + fuel) (posts w + fuel) (inputs w + fuel)
                 (trace w ++ retry_rounds (jira_gen w) (posts w) fuel))).
Proof.
  split; [split|split].
  - intros [fuel Hend]. apply credential_loop_out_of_fuel in Hend as (n & _ & Hok). eauto.
  - intros [n Hok]. exists (S n). eapply credential_loop_enough_fuel; [done|lia].
  - intros n fuel Hok Hfuel. by eapply credential_loop_enough_fuel.
  - intros Hfail fuel.
    pose proof (credential_loop_failures fuel 0 w) as Hloop.
    rewrite Nat.add_0_r in Hloop. rewrite Hloop; [done|]. intros i _. apply Hfail.
Qed.

Lemma credential_loop_success (fuel : nat) (w : World) (j : gmap string string) (u k : string) :
  status_code (endpoint (posts w)) = 200%Z ->
  json_body (endpoint (posts w)) = Some j ->
  j !! "user" = Some u ->
  j !! "api_key" = Some k ->
  EVG_CONFIG_FILE <> [] ->
  writable (fs w) EVG_CONFIG_FILE = true ->
  credential_loop (S fuel) w =
  (Ret tt,
   mkWorld (written (fs w) EVG_CONFIG_FILE (evergreen_yaml_template u k))
           (jira_gen w) (S (posts w)) (inputs w)
           (trace w ++ [EPost settings_url (fst (credentials (jira_gen w)))
                              (snd (credentials (jira_gen w)));
                        EOpen EVG_CONFIG_FILE;
                        EWrite EVG_CONFIG_FILE (evergreen_yaml_template u k)])).
Proof.
  intros Hok Hj Hu Hk Hp Hw. destruct w as [f g p i t]; simpl in *.
  unfold bind at 1 2 3. unfold conf_username, conf_jira_pwd, requests_post; simpl.
  rewrite Hok; simpl.
  unfold res_json, getitem, bind at 1 2 3. rewrite Hj. unfold ret at 1. rewrite Hu, Hk.
  unfold ret at 1 2. unfold bind.
  rewrite open_w_ok by done. simpl.
  rewrite fh_write_opened by done. simpl.
  by rewrite <- !app_assoc.
Qed.

Lemma retry_rounds_posts (g p n : nat) :
  length (filter is_post (retry_rounds g p n)) = n.
Proof.
  revert g p. induction n as [|n IH]; intros g p; [done|].
  change (retry_rounds g p (S n)) with (retry_round g p ++ retry_rounds (S g) (S p) n).
  rewrite filter_app, length_app, IH. reflexivity.
Qed.

Lemma retry_rounds_writes (g p n : nat) :
  filter is_write (retry_rounds g p n) = [].
Proof.
  revert g p. induction n as [|n IH]; intros g p; [done|].
  change (retry_rounds g p (S n)) with (retry_round g p ++ retry_rounds (S g) (S p) n).
  rewrite filter_app, IH. reflexivity.
Qed.

Lemma retry_rounds_prompts (g p n : nat) :
  filter is_prompt (retry_rounds g p n) = replicate n (EPrompt "Press any key to retry...").
Proof.
  revert g p. induction n as [|n IH]; intros g p; [done|].
  change (retry_rounds g p (S n)) with (retry_round g p ++ retry_rounds (S g) (S p) n).
  rewrite filter_app, IH. reflexivity.
Qed.

Lemma retry_rounds_resets (g p n : nat) :
  filter is_reset (retry_rounds g p n) = replicate n EReset.
Proof.
  revert g p. induction n as [|n IH]; intros g p; [done|].
  change (retry_rounds g p (S n)) with (retry_round g p ++ retry_rounds (S g) (S p) n).
  rewrite filter_app, IH. reflexivity.
Qed.

Lemma retry_rounds_side_effects (g p n : nat) :
  side_effects (retry_rounds g p n) = [].
Proof.
  revert g p. induction n as [|n IH]; intros g p; [done|].
  change (retry_rounds g p (S n)) with (retry_round g p ++ retry_rounds (S g) (S p) n).
  unfold side_effects in *. rewrite filter_app, IH. reflexivity.
Qed.

(** C3: with no credential file, an endpoint that refuses the first [N]
    requests and answers request [N+1] with status 200 and a body holding
    [user] and [api_key] makes [evergreen_yaml] go through exactly [N]
    failed rounds (request, error report, one key-press prompt, one reset,
    in this order), send the successful request and write the credential
    file once, with the template rendered from the two fields of that last
    answer; it then returns [True]. *)
Theorem evergreen_yaml_retries (N fuel : nat) (w : World)
    (j : gmap string string) (u k : string) :
  exists_ (fs w) EVG_CONFIG_FILE = false ->
  writable (fs w) EVG_CONFIG_FILE = true ->
  (forall i, i < N -> status_code (endpoint (posts w + i)) <> 200%Z) ->
  status_code (endpoint (posts w + N)) = 200%Z ->
  json_body (endpoint (posts w + N)) = Some j ->
  j !! "user" = Some u ->
  j !! "api_key" = Some k ->
  N < fuel ->
  exists w' d,
    evergreen_yaml fuel w = (Ret true, w')
    /\ trace w' = trace w ++ d
    /\ d = retry_rounds (jira_gen w) (posts w) N
           ++ [EPost settings_url (fst (credentials (jira_gen w + N)))
                     (snd (credentials (jira_gen w + N)));
               EOpen EVG_CONFIG_FILE;
               EWrite EVG_CONFIG_FILE (evergreen_yaml_template u k)]
    /\ length (filter is_post d) = S N
    /\ filter is_prompt d = replicate N (EPrompt "Press any key to retry...")
    /\ filter is_reset d = replicate N EReset
    /\ filter is_write d = [EWrite EVG_CONFIG_FILE (evergreen_yaml_template u k)]
    /\ fs w' = <[EVG_CONFIG_FILE := Entry (File (evergreen_yaml_template u k)) USER]> (fs w)
    /\ read (fs w') EVG_CONFIG_FILE = Some (evergreen_yaml_template u k)
    /\ posts w' = posts w + N + 1
    /\ inputs w' = inputs w + N
    /\ jira_gen w' = jira_gen w + N.
Proof.
  intros Hno Hw Hfail Hok Hj Hu Hk Hfuel.
  pose proof (exists_false_nonroot _ _ Hno) as Hp.
  destruct fuel as [|fuel]; [lia|].
  replace (S fuel) with (N + S (fuel - N)) by lia.
  eexists _, _. split; [|split; [|split; [reflexivity|]]].
  - unfold evergreen_yaml, bind at 1 2, get_fs. rewrite Hno.
    rewrite credential_loop_failures by done.
    erewrite credential_loop_success; simpl; done.
  - simpl. by rewrite <- app_assoc.
  - rewrite !filter_app, !length_app, retry_rounds_posts, retry_rounds_prompts,
      retry_rounds_resets, retry_rounds_writes.
    repeat split; try (simpl; lia); try by rewrite app_nil_r.
    + unfold written, owner. rewrite stat_nonroot by done.
      unfold exists_ in Hno. rewrite stat_nonroot in Hno by done.
      by destruct (fs w !! EVG_CONFIG_FILE).
    + by apply read_written.
Qed.

(** ** What a computation may add to the trace *)

Lemma emits_ret (P : event -> Prop) {A} (a : A) : emits P (ret a).
Proof. intros w r w' [= <- <-]. exists []. by rewrite app_nil_r. Qed.

Lemma emits_raise (P : event -> Prop) {A} (e : exn) : emits P (@raise A e).
Proof. intros w r w' [= <- <-]. exists []. by rewrite app_nil_r. Qed.

Lemma emits_bind (P : event -> Prop) {A B} (m : M A) (k : A -> M B) :
  emits P m -> (forall a, emits P (k a)) -> emits P (bind m k).
Proof.
  intros Hm Hk w r w'. unfold bind.
  destruct (m w) as [[a|e|] w1] eqn:E; intros H.
  - destruct (Hm _ _ _ E) as (d1 & Ht & H1).
    destruct (Hk a _ _ _ H) as (d2 & -> & H2).
    exists (d1 ++ d2). rewrite Ht, <- app_assoc. split; [done|]. by apply Forall_app.
  - injection H as <- <-. eauto.
  - injection H as <- <-. eauto.
Qed.

Lemma emits_try (P : event -> Prop) {A B} (m : M A) (h : M B) (k : A -> M B) :
  emits P m -> emits P h -> (forall a, emits P (k a)) -> emits P (try_unexpected_exit m h k).
Proof.
  intros Hm Hh Hk w r w'. unfold try_unexpected_exit.
  destruct (m w) as [[a|e|] w1] eqn:E; intros H.
  - destruct (Hm _ _ _ E) as (d1 & Ht & H1).
    destruct (Hk a _ _ _ H) as (d2 & -> & H2).
    exists (d1 ++ d2). rewrite Ht, <- app_assoc. split; [done|]. by apply Forall_app.
  - destruct (Hm _ _ _ E) as (d1 & Ht & H1).
    destruct e; try (injection H as <- <-; eauto).
    destruct (Hh _ _ _ H) as (d2 & -> & H2).
    exists (d1 ++ d2). rewrite Ht, <- app_assoc. split; [done|]. by apply Forall_app.
  - injection H as <- <-. eauto.
Qed.

Lemma emits_for_each (P : event -> Prop) {A} (body : A -> M unit) (l : list A) :
  (forall x, emits P (body x)) -> emits P (for_each body l).
Proof.
  intros Hb. induction l as [|x l IH]; simpl.
  - apply emits_ret.
  - apply emits_bind; [apply Hb|]. intros _. apply IH.
Qed.

Lemma emits_emit (P : event -> Prop) (e : event) : P e -> emits P (emit e).
Proof. intros He w r w' [= <- <-]. exists [e]. split; [done|]. by constructor. Qed.

Lemma emits_get_fs (P : event -> Prop) : emits P get_fs.
Proof. intros w r w' [= <- <-]. exists []. by rewrite app_nil_r. Qed.

Lemma emits_set_fs (P : event -> Prop) (f : FS) : emits P (set_fs f).
Proof. intros w r w' [= <- <-]. exists []. by rewrite app_nil_r. Qed.

(** ** No step writes the runner's log lines *)

Ltac quiet_step :=
  match goal with
  | |- emits _ ?m => change (quiet m)
  | |- quiet (bind _ _) => apply emits_bind; [|intros ?]
  | |- quiet (ret _) => apply emits_ret
  | |- quiet (raise _) => apply emits_raise
  | |- quiet (emit _) => apply emits_emit; reflexivity
  | |- quiet (log _ _ _) => apply emits_emit; reflexivity
  | |- quiet get_fs => apply emits_get_fs
  | |- quiet (set_fs _) => apply emits_set_fs
  | |- quiet (for_each _ _) => apply emits_for_each; intros ?
  | |- quiet (try_unexpected_exit _ _ _) => apply emits_try; [| |intros ?]
  | |- quiet (if ?b then _ else _) => destruct b
  | |- quiet (match ?x with _ => _ end) => destruct x
  | |- quiet _ => solve [auto with quiet]
  end.

Ltac quiet_tac := cbv zeta; repeat (quiet_step; cbv zeta).

Lemma quiet_req_input (msg : string) : quiet (req_input msg).
Proof. intros w r w' [= <- <-]. exists [EPrompt msg]. split; [done|]. by constructor. Qed.

Lemma quiet_conf_username : quiet conf_username.
Proof. intros w r w' [= <- <-]. exists []. by rewrite app_nil_r. Qed.

Lemma quiet_conf_jira_pwd : quiet conf_jira_pwd.
Proof. intros w r w' [= <- <-]. exists []. by rewrite app_nil_r. Qed.

Lemma quiet_conf_reset : quiet conf_reset_jira_credentials.
Proof. intros w r w' [= <- <-]. exists [EReset]. split; [done|]. by constructor. Qed.

Lemma quiet_conf_get_sudo_pwd : quiet conf_get_sudo_pwd.
Proof. apply emits_ret. Qed.

Lemma quiet_requests_post (url user pwd : string) : quiet (requests_post url user pwd).
Proof.
  intros w r w' [= <- <-]. exists [EPost url user pwd]. split; [done|]. by constructor.
Qed.

Lemma quiet_res_json (r : response) : quiet (res_json r).
Proof. unfold res_json. quiet_tac. Qed.

Lemma quiet_getitem (d : gmap string string) (k : string) : quiet (getitem d k).
Proof. unfold getitem. quiet_tac. Qed.

Lemma quiet_os_mkdir (p : path) : quiet (os_mkdir p).
Proof. unfold os_mkdir. quiet_tac. Qed.

Lemma quiet_mkdir_here (exist_ok : bool) (p : path) : quiet (mkdir_here exist_ok p).
Proof.
  intros w r w'. unfold mkdir_here.
  destruct (os_mkdir p w) as [[a|e|] w1] eqn:E; intros H;
    destruct (quiet_os_mkdir p _ _ _ E) as (d & Ht & Hd).
  - injection H as <- <-. eauto.
  - destruct (exist_ok && is_dir (fs w1) p); injection H as <- <-; eauto.
  - injection H as <- <-. eauto.
Qed.

Lemma quiet_mkdir_parents (depth : nat) :
  forall (exist_ok : bool) (p : path), quiet (mkdir_parents depth exist_ok p).
Proof.
  induction depth as [|depth IH]; intros exist_ok p w r w'; simpl;
    destruct (os_mkdir p w) as [[a|e|] w1] eqn:E; intros H;
    destruct (quiet_os_mkdir p _ _ _ E) as (d & Ht & Hd);
    try (injection H as <- <-; by eauto).
  - destruct e; try (destruct (exist_ok && is_dir (fs w1) p));
      injection H as <- <-; eauto.
  - destruct e; try (destruct (exist_ok && is_dir (fs w1) p); injection H as <- <-; by eauto);
      try (injection H as <- <-; by eauto).
    destruct p as [|c p']; [injection H as <- <-; by eauto|].
    assert (quiet (mkdir_parents depth true (parent (c :: p')) ;; mkdir_here exist_ok (c :: p')))
      as Hq.
    { apply emits_bind; [apply IH|]. intros _. apply quiet_mkdir_here. }
    destruct (Hq _ _ _ H) as (d2 & -> & Hd2).
    exists (d ++ d2). rewrite Ht, <- app_assoc. split; [done|]. by apply Forall_app.
Qed.

Lemma quiet_mkdir (parents exist_ok : bool) (p : path) : quiet (mkdir parents exist_ok p).
Proof.
  unfold mkdir. destruct parents; [apply quiet_mkdir_parents|apply quiet_mkdir_here].
Qed.

Lemma quiet_open_w (p : path) : quiet (open_w p).
Proof. unfold open_w. quiet_tac. Qed.

Lemma quiet_fh_write (p : path) (data : string) : quiet (fh_write p data).
Proof. unfold fh_write. quiet_tac. Qed.

Lemma quiet_invoke (i : invocation) : quiet (invoke i).
Proof. unfold invoke. quiet_tac. Qed.

Lemma quiet_ctx_run (cwd : option path) (prefix : list string) (cmd : string) :
  quiet (ctx_run cwd prefix cmd).
Proof. apply quiet_invoke. Qed.

Lemma quiet_ctx_sudo (cmd pw : string) : quiet (ctx_sudo cmd pw).
Proof. apply quiet_invoke. Qed.

Create HintDb quiet.

#[local] Hint Resolve quiet_req_input quiet_conf_username quiet_conf_jira_pwd
  quiet_conf_reset quiet_conf_get_sudo_pwd quiet_requests_post quiet_res_json
  quiet_getitem quiet_mkdir quiet_open_w quiet_fh_write quiet_ctx_run
  quiet_ctx_sudo : quiet.

Lemma quiet_credential_loop (fuel : nat) : quiet (credential_loop fuel).
Proof.
  induction fuel as [|fuel IH]; simpl.
  - intros w r w' [= <- <-]. exists []. by rewrite app_nil_r.
  - quiet_tac.
Qed.

#[local] Hint Resolve quiet_credential_loop : quiet.

Lemma quiet_evergreen_yaml (fuel : nat) : quiet (evergreen_yaml fuel).
Proof. unfold evergreen_yaml. quiet_tac. Qed.

Lemma quiet_ssh_keys : quiet ssh_keys.
Proof. unfold ssh_keys. quiet_tac. Qed.

Lemma quiet_clone_repos : quiet clone_repos.
Proof. unfold clone_repos. quiet_tac. Qed.

Lemma quiet_create_dir (d : path) : quiet (create_dir d).
Proof. unfold create_dir. quiet_tac. Qed.

Lemma quiet_do_download (dc : DownloadConfig) : quiet (_do_download dc).
Proof. unfold _do_download. quiet_tac. Qed.

#[local] Hint Resolve quiet_do_download : quiet.

Lemma quiet_download_executable_tarball (dc : DownloadConfig) (dn pn : string) :
  quiet (_download_executable_tarball dc dn pn).
Proof. unfold _download_executable_tarball. quiet_tac. Qed.

#[local] Hint Resolve quiet_download_executable_tarball : quiet.

Lemma quiet_download_clang_format : quiet download_clang_format.
Proof. unfold download_clang_format. quiet_tac. Qed.

Lemma quiet_download_eslint : quiet download_eslint.
Proof. unfold download_eslint. quiet_tac. Qed.

Lemma quiet_download_evergreen : quiet download_evergreen.
Proof. unfold download_evergreen. quiet_tac. Qed.

Lemma quiet_install_githooks : quiet install_githooks.
Proof. unfold install_githooks. quiet_tac. Qed.

Lemma quiet_run_cmds (cwd : option path) (prefix cmds : list string) :
  quiet (run_cmds cwd prefix cmds).
Proof. unfold run_cmds. quiet_tac. Qed.

#[local] Hint Resolve quiet_run_cmds : quiet.

Lemma quiet_setup_mongo_repo_env : quiet setup_mongo_repo_env.
Proof. unfold setup_mongo_repo_env. quiet_tac. Qed.

Lemma quiet_install_ninja : quiet install_ninja.
Proof. unfold install_ninja. quiet_tac. Qed.

Lemma quiet_install_shell_profile : quiet install_shell_profile.
Proof. unfold install_shell_profile. quiet_tac. Qed.

Lemma quiet_post_task_instructions : quiet post_task_instructions.
Proof. unfold post_task_instructions, log_multiline. quiet_tac. Qed.

Lemma quiet_call {A} (m : M A) : quiet m -> quiet (call m).
Proof. intros Hm. unfold call. apply emits_bind; [done|]. intros _. apply emits_ret. Qed.

Lemma funcs_quiet (fuel : nat) : Forall (fun s : Step => quiet (fst s)) (funcs fuel).
Proof.
  unfold funcs. repeat constructor; simpl;
    auto using quiet_call, quiet_create_dir, quiet_evergreen_yaml, quiet_ssh_keys,
      quiet_clone_repos, quiet_download_clang_format, quiet_download_eslint,
      quiet_download_evergreen, quiet_install_ninja, quiet_setup_mongo_repo_env,
      quiet_install_githooks, quiet_install_shell_profile, quiet_post_task_instructions.
Qed.

(** ** The runner and the sequence *)

Lemma markers_quiet (d : list event) :
  Forall (fun e => is_marker e = false) d -> markers d = [].
Proof.
  unfold markers. induction 1 as [|e d He _ IH]; [done|].
  rewrite filter_cons_False; [done|].
  intros Hm. apply Is_true_true in Hm. congruence.
Qed.

Lemma markers_app (d1 d2 : list event) : markers (d1 ++ d2) = markers d1 ++ markers d2.
Proof. apply filter_app. Qed.

Lemma for_each_app {A} (body : A -> M unit) (l1 l2 : list A) (w : World) :
  for_each body (l1 ++ l2) w = (for_each body l1 ;; for_each body l2) w.
Proof.
  revert w. induction l1 as [|x l1 IH]; intros w; simpl; [done|].
  unfold bind. destruct (body x w) as [[[]|e|] w1]; [|done..].
  rewrite IH. reflexivity.
Qed.

Lemma run_steps_app (l1 l2 : list Step) (w : World) :
  run_steps (l1 ++ l2) w = (run_steps l1 ;; run_steps l2) w.
Proof. apply for_each_app. Qed.

(** A step whose action raises makes the runner raise the same exception in
    the world the action left; the completion line is not written. *)
Lemma log_func_raise (func : M unit) (label : string) (w w' : World) (e : exn) :
  func (snd (emit (EStart label) w)) = (Raise e, w') ->
  log_func func label w = (Raise e, w').
Proof. intros H. unfold log_func, bind. simpl in *. by rewrite H. Qed.

Lemma log_func_markers (func : M unit) (label : string) (w w' : World) :
  quiet func ->
  log_func func label w = (Ret tt, w') ->
  exists d, trace w' = trace w ++ d /\ markers d = [EStart label; EDone label].
Proof.
  intros Hq. unfold log_func, bind. simpl.
  destruct (func _) as [[[]|e|] w1] eqn:E; [|done..].
  intros [= <-]. destruct (Hq _ _ _ E) as (d & Ht & Hd). simpl in *.
  exists ([EStart label] ++ d ++ [EDone label]).
  rewrite Ht, <- !app_assoc. split; [done|].
  rewrite !markers_app, (markers_quiet d) by done. reflexivity.
Qed.

Lemma log_func_raise_markers (func : M unit) (label : string) (w w' : World) (e : exn) :
  quiet func ->
  func (snd (emit (EStart label) w)) = (Raise e, w') ->
  exists d, trace w' = trace w ++ d /\ markers d = [EStart label].
Proof.
  intros Hq E. destruct (Hq _ _ _ E) as (d & Ht & Hd). simpl in *.
  exists ([EStart label] ++ d). rewrite Ht, <- !app_assoc. split; [done|].
  rewrite markers_app, (markers_quiet d) by done. reflexivity.
Qed.

(** A run of steps that returns has logged, for each step in order, its
    start and its completion, once. *)
Lemma run_steps_markers (l : list Step) :
  Forall (fun s : Step => quiet (fst s)) l ->
  forall w w', run_steps l w = (Ret tt, w') ->
  exists d, trace w' = trace w ++ d /\ markers d = flat_map step_markers l.
Proof.
  induction 1 as [|s l Hs _ IH]; intros w w'.
  - intros [= <-]. exists []. by rewrite app_nil_r.
  - unfold run_steps. simpl. unfold bind at 1.
    destruct (log_func (fst s) (snd s) w) as [[[]|e|] w1] eqn:E; [|done..].
    intros H. apply log_func_markers in E as (d1 & Ht1 & Hm1); [|done].
    apply IH in H as (d2 & -> & Hm2).
    exists (d1 ++ d2). rewrite Ht1, <- app_assoc. split; [done|].
    by rewrite markers_app, Hm1, Hm2.
Qed.

(** C4: when the run reaches step [k] (the steps before it have returned)
    and the action of step [k] raises an error, the whole run raises that
    error in the very world in which the action failed, so that nothing
    done before is undone, and ends [Aborted] with a failure status.  The
    runner's log lines of the run are then: start and completion of each
    of the steps [0..k-1], once and in order, and the start of step [k];
    no later step was started. *)
Theorem macos_aborts_at_failing_step
    (fuel k : nat) (s : Step) (w wk w' : World) (e : exn) :
  funcs fuel !! k = Some s ->
  run_steps (take k (funcs fuel)) w = (Ret tt, wk) ->
  fst s (snd (emit (EStart (snd s)) wk)) = (Raise e, w') ->
  e <> SystemExit 0 ->
  macos fuel w = (Raise e, w')
  /\ final_state (fst (macos fuel w)) = Aborted
  /\ exit_status (fst (macos fuel w)) <> Some 0%Z
  /\ (exists d0, trace w' = trace wk ++ d0)
  /\ exists d,
       trace w' = trace w ++ d
       /\ markers d = flat_map step_markers (take k (funcs fuel)) ++ [EStart (snd s)].
Proof.
  intros Hk Hpre Hfail He.
  pose proof (funcs_quiet fuel) as Hquiet.
  assert (Hs : quiet (fst s)).
  { rewrite Forall_lookup in Hquiet. by apply (Hquiet k). }
  assert (Hrun : macos fuel w = (Raise e, w')).
  { unfold macos. rewrite <- (take_drop_middle _ _ _ Hk).
    rewrite run_steps_app. unfold bind at 1. rewrite Hpre.
    unfold run_steps. simpl. unfold bind at 1.
    by rewrite (log_func_raise _ _ _ _ _ Hfail). }
  rewrite Hrun. simpl.
  split; [done|]. split; [by destruct e as [| | | | | | |[]]|].
  split; [destruct e as [| | | | | | |c]; try done; intros [= ->]; done|].
  destruct (log_func_raise_markers _ _ _ _ _ Hs Hfail) as (d2 & Ht2 & Hm2).
  split; [eauto|].
  apply run_steps_markers in Hpre as (d1 & Ht1 & Hm1); [|by apply Forall_take].
  exists (d1 ++ d2). rewrite Ht2, Ht1, <- app_assoc. split; [done|].
  by rewrite markers_app, Hm1, Hm2.
Qed.

(** ** Directories *)

Lemma parent_sub (p : path) (name : string) : parent (sub p name) = p.
Proof. apply removelast_last. Qed.

Lemma sub_neq (p : path) (name : string) : sub p name <> p.
Proof.
  unfold sub. intros H. apply (f_equal length) in H. rewrite length_app in H.
  simpl in H. lia.
Qed.

Lemma sub_nonroot (p : path) (name : string) : sub p name <> [].
Proof. unfold sub. by destruct p. Qed.

Lemma is_dir_exists (f : FS) (p : path) : is_dir f p = true -> exists_ f p = true.
Proof. unfold is_dir, exists_. by destruct (stat f p) as [[[]]|]. Qed.

Lemma world_eta (w : World) :
  w = mkWorld (fs w) (jira_gen w) (posts w) (inputs w) (trace w ++ []).
Proof. destruct w; simpl. by rewrite app_nil_r. Qed.

Lemma mkdir_here_existing (p : path) (w : World) :
  is_dir (fs w) p = true -> mkdir_here true p w = (Ret tt, w).
Proof.
  intros Hd. unfold mkdir_here, os_mkdir, bind, get_fs.
  destruct (file_above (fs w) [] p); simpl; [by rewrite Hd|].
  rewrite (is_dir_exists _ _ Hd). simpl. by rewrite Hd.
Qed.

Lemma mkdir_parents_existing (depth : nat) (p : path) (w : World) :
  is_dir (fs w) p = true -> mkdir_parents depth true p w = (Ret tt, w).
Proof.
  intros Hd. destruct depth; simpl; unfold os_mkdir, bind, get_fs;
    (destruct (file_above (fs w) [] p); simpl; [by rewrite Hd|]);
    rewrite (is_dir_exists _ _ Hd); simpl; by rewrite Hd.
Qed.

Lemma mkdir_existing (parents : bool) (p : path) (w : World) :
  is_dir (fs w) p = true -> mkdir parents true p w = (Ret tt, w).
Proof.
  intros Hd. unfold mkdir.
  destruct parents; [by apply mkdir_parents_existing|by apply mkdir_here_existing].
Qed.

Lemma mkdir_here_ok (p : path) (w : World) :
  can_mkdir (fs w) p = true ->
  mkdir_here true p w =
  (Ret tt, mkWorld (made_dir (fs w) p) (jira_gen w) (posts w) (inputs w)
                   (trace w ++ mkdir_events (fs w) p)).
Proof.
  unfold can_mkdir, made_dir, mkdir_events. intros H.
  destruct (is_dir (fs w) p) eqn:Hd.
  - rewrite mkdir_here_existing by done. f_equal. apply world_eta.
  - simpl in H. apply andb_prop in H as [[Ha He]%andb_prop Hp].
    apply negb_true_iff in Ha, He.
    unfold mkdir_here, os_mkdir, bind, get_fs. by rewrite Ha, He, Hp.
Qed.

Lemma is_file_made_dir (f : FS) (p q : path) :
  can_mkdir f p = true -> is_file (made_dir f p) q = is_file f q.
Proof.
  unfold can_mkdir, made_dir. intros H.
  destruct (is_dir f p) eqn:Hd; [done|]. simpl in H.
  apply andb_prop in H as [[_ He%negb_true_iff]%andb_prop _].
  unfold is_file. destruct q as [|c q]; [done|]. simpl.
  destruct (decide (p = c :: q)) as [->|Hne].
  - rewrite lookup_insert_eq. unfold exists_ in He. simpl in He.
    by destruct (f !! (c :: q)).
  - by rewrite lookup_insert_ne.
Qed.

Lemma file_above_ext (f f' : FS) (pre rest : path) :
  (forall q, is_file f' q = is_file f q) ->
  file_above f' pre rest = file_above f pre rest.
Proof.
  intros H. revert pre. induction rest as [|c rest IH]; intros pre; simpl; [done|].
  by rewrite H, IH.
Qed.

Lemma is_dir_made_dir (f : FS) (p : path) : is_dir (made_dir f p) p = true.
Proof.
  unfold made_dir. destruct (is_dir f p) eqn:Hd; [done|].
  unfold is_dir. destruct p as [|c p]; [done|]. simpl. by rewrite lookup_insert_eq.
Qed.

Lemma is_dir_made_dir_other (f : FS) (p q : path) :
  q <> p -> is_dir (made_dir f p) q = is_dir f q.
Proof.
  intros Hne. unfold made_dir. destruct (is_dir f p); [done|].
  unfold is_dir. destruct q as [|c q]; [done|]. simpl. by rewrite lookup_insert_ne.
Qed.

Lemma ssh_ready_writable (f : FS) :
  ssh_ready f = true ->
  can_mkdir f (sub HOME ".ssh") = true
  /\ writable (made_dir f (sub HOME ".ssh")) (sub (sub HOME ".ssh") "config") = true.
Proof.
  unfold ssh_ready. intros [[Hc Ha]%andb_prop Hd]%andb_prop. split; [done|].
  unfold writable.
  rewrite (file_above_ext f) by (intros q; by apply is_file_made_dir).
  rewrite Ha. rewrite is_dir_made_dir_other by apply sub_neq. rewrite Hd.
  rewrite parent_sub. simpl. apply is_dir_exists, is_dir_made_dir.
Qed.

(** ** The ssh step *)

(** With no key file, [ssh_keys] creates [~/.ssh] if need be, writes the
    host-key stanza into the ssh configuration and prompts; the answer
    decides between a normal return and [sys.exit(0)]. *)
Lemma ssh_keys_no_key (w : World) :
  ssh_ready (fs w) = true ->
  is_file (fs w) SSH_KEY_FILE = false ->
  ssh_keys w =
  (if String.eqb (operator (inputs w)) "skip" then Ret tt else Raise (SystemExit 0),
   mkWorld (written (made_dir (fs w) (sub HOME ".ssh")) (sub (sub HOME ".ssh") "config") ssh_stanza)
           (jira_gen w) (posts w) (S (inputs w))
           (trace w ++ ssh_setup_events (fs w) ++ ssh_answer_events (operator (inputs w)))).
Proof.
  intros [Hc Hw]%ssh_ready_writable Hk.
  unfold ssh_keys, mkdir. cbv zeta. unfold bind at 1.
  rewrite mkdir_here_ok by done.
  unfold bind at 1. unfold get_fs at 1. cbn [fs].
  rewrite is_file_made_dir, Hk by done.
  unfold bind at 1. unfold log at 1, emit at 1. cbn [fs jira_gen posts inputs trace].
  unfold bind at 1. rewrite open_w_ok by done. simpl.
  unfold bind at 1. unfold log at 1, emit at 1. simpl.
  unfold bind at 1. rewrite fh_write_opened by apply sub_nonroot. simpl.
  unfold bind at 1. unfold req_input at 1. simpl.
  unfold ssh_setup_events, ssh_answer_events.
  destruct (String.eqb (operator (inputs w)) "skip"); simpl;
    unfold bind, log, emit, raise; simpl; by rewrite <- !app_assoc.
Qed.

Lemma emits_weaken (P Q : event -> Prop) {A} (m : M A) :
  (forall e, P e -> Q e) -> emits P m -> emits Q m.
Proof.
  intros HPQ Hm w r w' E. destruct (Hm _ _ _ E) as (d & Ht & Hd).
  exists d. split; [done|]. eapply Forall_impl; eauto.
Qed.

Lemma emits_log_func (func : M unit) (label : string) :
  quiet func -> emits (fun _ => True) (log_func func label).
Proof.
  intros Hq. unfold log_func.
  apply emits_bind; [by apply emits_emit|]. intros _.
  apply emits_bind; [by eapply emits_weaken, Hq|]. intros _. by apply emits_emit.
Qed.

Lemma emits_run_steps (l : list Step) :
  Forall (fun s : Step => quiet (fst s)) l -> emits (fun _ => True) (run_steps l).
Proof.
  induction 1 as [|s l Hs _ IH]; unfold run_steps; simpl; [apply emits_ret|].
  apply emits_bind; [by apply emits_log_func|]. intros _. apply IH.
Qed.

Lemma run_steps_cons (s : Step) (l : list Step) (w : World) :
  run_steps (s :: l) w = (log_func (fst s) (snd s) ;; run_steps l) w.
Proof. reflexivity. Qed.

(** A run starts with the start line of its first step. *)
Lemma run_steps_starts (s : Step) (l : list Step) (w : World) :
  Forall (fun s : Step => quiet (fst s)) (s :: l) ->
  exists d, trace (snd (run_steps (s :: l) w)) = trace w ++ [EStart (snd s)] ++ d.
Proof.
  intros [Hs Hl]%Forall_cons.
  assert (He : emits (fun _ => True) ((fst s ;; emit (EDone (snd s))) ;; run_steps l)).
  { apply emits_bind.
    - apply emits_bind; [by eapply emits_weaken, Hs|]. intros _. by apply emits_emit.
    - intros _. by apply emits_run_steps. }
  specialize (He (snd (emit (EStart (snd s)) w))).
  change (run_steps (s :: l) w)
    with (((fst s ;; emit (EDone (snd s))) ;; run_steps l) (snd (emit (EStart (snd s)) w))).
  destruct (((fst s ;; emit (EDone (snd s))) ;; run_steps l) _) as [r w2].
  destruct (He _ _ eq_refl) as (d & Ht & _). exists d.
  cbn [snd]. rewrite Ht. cbn [emit snd trace]. by rewrite <- app_assoc.
Qed.

Lemma funcs_split (fuel : nat) :
  funcs fuel =
  (ssh_keys, "Configure SSH Keys")
  :: (call (create_dir ["data"]), "Create MongoDB Data Directory")
  :: drop 2 (funcs fuel).
Proof. reflexivity. Qed.

(** The run of the sequence after a first step that returned: the next
    step is started. *)
Lemma macos_after_first_step (fuel : nat) (w w1 : World) :
  log_func ssh_keys "Configure SSH Keys" w = (Ret tt, w1) ->
  macos fuel w = run_steps (drop 1 (funcs fuel)) w1
  /\ exists d, trace (snd (macos fuel w))
               = trace w1 ++ [EStart "Create MongoDB Data Directory"] ++ d.
Proof.
  intros H1.
  assert (Hm : macos fuel w = run_steps (drop 1 (funcs fuel)) w1).
  { unfold macos. rewrite funcs_split at 1. rewrite run_steps_cons.
    unfold bind at 1. cbn [fst snd]. by rewrite H1. }
  split; [done|]. rewrite Hm.
  pose proof (funcs_quiet fuel) as Hq. rewrite funcs_split in Hq |- *.
  cbn [drop]. apply Forall_cons in Hq as [_ Hq].
  apply (run_steps_starts _ _ w1 Hq).
Qed.

(** C5: with no key file and an answer other than [skip], the ssh step
    opens the help page, prints the instruction to rerun the tool and
    calls [sys.exit(0)]: the instruction is the last thing the run does,
    the run ends [HaltedForManualAction] with exit status 0, and the only
    log line of the runner is the start of the ssh step, so no later step
    was started. *)
Theorem ssh_keys_manual_followup_halts (fuel : nat) (w : World) :
  ssh_ready (fs w) = true ->
  is_file (fs w) SSH_KEY_FILE = false ->
  operator (inputs w) <> "skip" ->
  let d := [EStart "Configure SSH Keys"] ++ ssh_setup_events (fs w)
           ++ [EBrowser GITHUB_SSH_HELP_URL; ELog Info (actionable ssh_rerun_msg) []] in
  let w' := mkWorld (written (made_dir (fs w) (sub HOME ".ssh"))
                             (sub (sub HOME ".ssh") "config") ssh_stanza)
                    (jira_gen w) (posts w) (S (inputs w)) (trace w ++ d) in
  fst (ssh_keys w) = Raise (SystemExit 0)
  /\ macos fuel w = (Raise (SystemExit 0), w')
  /\ last (trace w') = Some (ELog Info (actionable ssh_rerun_msg) [])
  /\ markers d = [EStart "Configure SSH Keys"]
  /\ final_state (fst (macos fuel w)) = HaltedForManualAction
  /\ exit_status (fst (macos fuel w)) = Some 0%Z.
Proof.
  intros Hr Hk Ha d w'.
  apply String.eqb_neq in Ha.
  assert (Hm : macos fuel w = (Raise (SystemExit 0), w')).
  { unfold macos. rewrite funcs_split, run_steps_cons. unfold bind at 1. cbn [fst snd].
    rewrite (log_func_raise _ _ _ w' (SystemExit 0)); [done|].
    rewrite ssh_keys_no_key by done. cbn [emit snd fs jira_gen posts inputs trace].
    rewrite Ha. unfold w', d, ssh_answer_events. rewrite Ha. by rewrite <- !app_assoc. }
  rewrite Hm. repeat split.
  - rewrite ssh_keys_no_key by done. by rewrite Ha.
  - unfold w', d. cbn [trace].
    replace (trace w ++ [EStart "Configure SSH Keys"] ++ ssh_setup_events (fs w)
             ++ [EBrowser GITHUB_SSH_HELP_URL; ELog Info (actionable ssh_rerun_msg) []])
      with ((trace w ++ [EStart "Configure SSH Keys"] ++ ssh_setup_events (fs w)
             ++ [EBrowser GITHUB_SSH_HELP_URL]) ++ [ELog Info (actionable ssh_rerun_msg) []])
      by (by rewrite <- !app_assoc).
    apply last_snoc.
  - unfold d, ssh_setup_events, mkdir_events.
    by destruct (is_dir (fs w) (sub HOME ".ssh")).
Qed.

(** C10: with no key file, whatever the operator answers afterwards, the
    ssh step opens the ssh configuration file for writing and writes the
    stanza that disables strict host key checking for github.com before
    it prompts, so that the file then holds the stanza and nothing else;
    on the answer [skip] the step returns and the run goes on with the
    next step, on any other answer it calls [sys.exit(0)]. *)
Theorem ssh_keys_overwrites_config_before_prompt (fuel : nat) (w : World) :
  ssh_ready (fs w) = true ->
  is_file (fs w) SSH_KEY_FILE = false ->
  let config_file := sub (sub HOME ".ssh") "config" in
  exists r w',
    ssh_keys w = (r, w')
    /\ trace w' =
       trace w ++ mkdir_events (fs w) (sub HOME ".ssh")
       ++ [ELog Info "Did not find existing ssh key in ~/.ssh/id_rsa" [];
           EOpen config_file;
           ELog Info "Disabling host key checking for github.com in %s" [str_path config_file];
           EWrite config_file ssh_stanza;
           EPrompt ssh_prompt]
       ++ ssh_answer_events (operator (inputs w))
    /\ filter is_prompt (mkdir_events (fs w) (sub HOME ".ssh")) = []
    /\ filter is_prompt (ssh_answer_events (operator (inputs w))) = []
    /\ read (fs w') config_file = Some ssh_stanza
    /\ (operator (inputs w) = "skip" ->
        r = Ret tt
        /\ exists w1,
             log_func ssh_keys "Configure SSH Keys" w = (Ret tt, w1)
             /\ macos fuel w = run_steps (drop 1 (funcs fuel)) w1
             /\ exists d2, trace (snd (macos fuel w))
                           = trace w1 ++ [EStart "Create MongoDB Data Directory"] ++ d2)
    /\ (operator (inputs w) <> "skip" -> r = Raise (SystemExit 0)).
Proof.
  intros Hr Hk config_file.
  eexists _, _. split; [by apply ssh_keys_no_key|].
  split; [cbn [trace]; unfold ssh_setup_events; by rewrite <- !app_assoc|].
  split; [unfold mkdir_events; by destruct (is_dir _ _)|].
  split; [unfold ssh_answer_events; by destruct (String.eqb _ _)|].
  split; [cbn [fs]; apply read_written, sub_nonroot|].
  split.
  - intros Ha. rewrite Ha. split; [done|].
    assert (exists w1, log_func ssh_keys "Configure SSH Keys" w = (Ret tt, w1)) as [w1 H1].
    { unfold log_func, bind at 1. cbn [emit]. unfold bind at 1.
      rewrite ssh_keys_no_key by done. cbn [fs jira_gen posts inputs trace].
      rewrite Ha. cbn [String.eqb]. unfold emit. eauto. }
    exists w1. split; [done|]. by apply macos_after_first_step.
  - intros Ha. apply String.eqb_neq in Ha. by rewrite Ha.
Qed.

(** ** The steps when their test succeeds *)

Lemma since_logged (w : World) (d : list event) : since w (logged w d) = d.
Proof. unfold since, logged. cbn [trace]. by rewrite drop_app_length. Qed.

Lemma since_app (w w' : World) (d : list event) :
  trace w' = trace w ++ d -> since w w' = d.
Proof. intros H. unfold since. rewrite H. by rewrite drop_app_length. Qed.

Lemma ssh_keys_found_key (w : World) :
  is_dir (fs w) (sub HOME ".ssh") = true ->
  is_file (fs w) SSH_KEY_FILE = true ->
  ssh_keys w =
  (Ret tt,
   logged w [ELog Info "Found existing key ~/.ssh/id_rsa, skipping setting up ssh keys" [];
             ELog Info "Please ensure your keys are added to your GitHub account" []]).
Proof.
  intros Hd Hk. unfold ssh_keys. cbv zeta. unfold bind at 1.
  rewrite mkdir_existing by done. unfold bind at 1, get_fs at 1. rewrite Hk.
  unfold bind, log, emit, logged. cbn [fs jira_gen posts inputs trace].
  by rewrite <- !app_assoc.
Qed.

Lemma create_dir_owned (d : path) (w : World) :
  exists_ (fs w) d && bool_decide (owner (fs w) d = Some USER) = true ->
  create_dir d w =
  (Ret (Some true),
   logged w [ELog Warning ("Directory " +:+ str_path d
                           +:+ " exists and is owned by the current user, skipping creation") []]).
Proof.
  intros Hg. unfold create_dir, bind at 1, get_fs at 1. rewrite Hg. reflexivity.
Qed.

Lemma clone_repos_loop_present (repos : list DownloadConfig) (w : World) :
  forallb (fun rc => exists_ (fs w) (under REPO_ROOT (relative_local rc))) repos = true ->
  for_each
    (fun repo_config =>
       let repo_dir := under REPO_ROOT (relative_local repo_config) in
       f <- get_fs ;;
       if exists_ f repo_dir then
         (log Warning "Local directory %s exists." [str_path repo_dir] ;;
          log Warning "If you'd like to re-clone, please delete this directory first" [])
       else
         (let cmd := "git clone " +:+ remote repo_config +:+ " " +:+ str_path repo_dir in
          log Info cmd [] ;;
          ctx_run (Some REPO_ROOT) [] cmd ;;
          ret tt))
    repos w
  = (Ret tt, logged w (flat_map clone_skip_lines repos)).
Proof.
  revert w. induction repos as [|rc repos IH]; intros w Hall.
  - unfold logged. cbn. rewrite app_nil_r. by destruct w.
  - cbn [forallb] in Hall. apply andb_prop in Hall as [Hrc Hall].
    cbn [for_each]. unfold bind at 1. cbv zeta. unfold bind at 1, get_fs at 1.
    rewrite Hrc. unfold bind at 1, log at 1 2, emit. cbn [fs jira_gen posts inputs trace].
    rewrite IH by done. unfold logged. cbn [fs jira_gen posts inputs trace flat_map].
    unfold clone_skip_lines at 2. by rewrite <- !app_assoc.
Qed.

Lemma clone_repos_present (w : World) :
  is_dir (fs w) REPO_ROOT = true ->
  forallb (fun rc => exists_ (fs w) (under REPO_ROOT (relative_local rc))) REQUIRED_REPOS = true ->
  clone_repos w =
  (Ret tt,
   logged w (ELog Info "Placing MongoDB Git repositories in %s" [str_path REPO_ROOT]
             :: flat_map clone_skip_lines REQUIRED_REPOS)).
Proof.
  intros Hd Hall. unfold clone_repos, bind at 1. rewrite mkdir_existing by done.
  unfold bind at 1, log at 1, emit at 1.
  rewrite clone_repos_loop_present by done.
  unfold logged. cbn [fs jira_gen posts inputs trace]. by rewrite <- !app_assoc.
Qed.

Lemma download_clang_format_present (w : World) :
  exists_ (fs w) (sub (sub HOME "bin") "clang-format") = true ->
  download_clang_format w =
  (Ret tt, logged w [ELog Warning "File %s already exists. Skipping install"
                          [str_path (sub (sub HOME "bin") "clang-format")]]).
Proof.
  intros Hg. unfold download_clang_format. cbv zeta. unfold bind at 1, get_fs at 1.
  by rewrite Hg.
Qed.

Lemma download_eslint_present (w : World) :
  exists_ (fs w) (sub (sub HOME "bin") "eslint") = true ->
  download_eslint w =
  (Ret tt, logged w [ELog Warning "File/Directory %s already exists. Skipping install"
                          [str_path (sub (sub HOME "bin") "eslint")]]).
Proof.
  intros Hg. unfold download_eslint, _download_executable_tarball. cbv zeta.
  unfold bind at 1, get_fs at 1. by rewrite Hg.
Qed.

(** The download is skipped, [chmod] is run all the same. *)
Lemma download_evergreen_present (w : World) :
  exists_ (fs w) (sub (sub HOME "bin") "evergreen") = true ->
  download_evergreen w =
  (match sh chmod_evergreen (fs w) with
   | Some _ => Ret tt
   | None => Raise (UnexpectedExit chmod_evergreen)
   end,
   mkWorld (default (fs w) (sh chmod_evergreen (fs w))) (jira_gen w) (posts w) (inputs w)
           (trace w ++ [ELog Warning "File %s already exists. Skipping downloading evergreen CLI"
                             [str_path (sub (sub HOME "bin") "evergreen")];
                        ERun chmod_evergreen])).
Proof.
  intros Hg. unfold download_evergreen. cbv zeta. unfold bind at 1, get_fs at 1.
  rewrite Hg. unfold bind at 1 2, log, emit. cbn [fs jira_gen posts inputs trace].
  unfold ctx_run, invoke, bind at 1 2, emit, get_fs. cbn [fs jira_gen posts inputs trace].
  fold chmod_evergreen.
  destruct (sh chmod_evergreen (fs w)) as [f'|]; cbn; by rewrite <- !app_assoc.
Qed.

(** [ninja --version] is run in any case; when it succeeds nothing else is. *)
Lemma install_ninja_present (w : World) (f' : FS) :
  sh ninja_version (fs w) = Some f' ->
  install_ninja w =
  (Ret tt,
   mkWorld f' (jira_gen w) (posts w) (inputs w)
           (trace w ++ [ERun ninja_version;
                        ELog Warning "ninja appears to be already installed, skipping install" []])).
Proof.
  intros Hs. unfold install_ninja, try_unexpected_exit, ctx_run, invoke.
  unfold bind at 1, emit at 1. unfold bind at 1, get_fs at 1.
  cbn [fs jira_gen posts inputs trace]. fold ninja_version. rewrite Hs.
  cbn. unfold log, emit. cbn [fs jira_gen posts inputs trace]. by rewrite <- !app_assoc.
Qed.

(** ** Creating a directory with its parents *)

Lemma file_above_true (f : FS) (pre rest : path) :
  file_above f pre rest = true <->
  exists k, k < length rest /\ is_file f (pre ++ take k rest) = true.
Proof.
  revert pre. induction rest as [|c rest IH]; intros pre; cbn [file_above length].
  - split; [done|]. intros (k & Hk & _). lia.
  - rewrite orb_true_iff, IH. split.
    + intros [H|(k & Hk & H)].
      * exists 0. split; [lia|]. by rewrite take_0, app_nil_r.
      * exists (S k). split; [lia|]. by rewrite <- app_assoc in H.
    + intros ([|k] & Hk & H).
      * left. by rewrite take_0, app_nil_r in H.
      * right. exists k. split; [lia|]. by rewrite <- app_assoc.
Qed.

Lemma no_file_on_take (f : FS) (p : path) :
  no_file_on f p = true <-> forall k, is_file f (take k p) = false.
Proof.
  unfold no_file_on. rewrite andb_true_iff, !negb_true_iff. split.
  - intros [Ha Hp] k. destruct (decide (k < length p)) as [Hk|Hk].
    + destruct (is_file f (take k p)) eqn:E; [|done].
      assert (file_above f [] p = true) as Hc; [|congruence].
      apply file_above_true. eauto.
    + by rewrite take_ge by lia.
  - intros H. split.
    + destruct (file_above f [] p) eqn:E; [|done].
      apply file_above_true in E as (k & _ & Hk). cbn in Hk. by rewrite H in Hk.
    + specialize (H (length p)). by rewrite take_ge in H by lia.
Qed.

Lemma parent_take (p : path) : parent p = take (length p - 1) p.
Proof.
  unfold parent. rewrite removelast_firstn_len. f_equal. lia.
Qed.

Lemma only_new_dirs_refl (p : path) (f : FS) : only_new_dirs p f f.
Proof. intros q. by left. Qed.

Lemma only_new_dirs_is_file (p : path) (f f' : FS) (q : path) :
  only_new_dirs p f f' -> is_file f' q = is_file f q.
Proof.
  intros H. unfold is_file. destruct q as [|c q]; [done|]. cbn [stat].
  destruct (H (c :: q)) as [->|(-> & -> & _)]; done.
Qed.

Lemma only_new_dirs_is_dir (p : path) (f f' : FS) (q : path) :
  only_new_dirs p f f' -> is_dir f q = true -> is_dir f' q = true.
Proof.
  intros H. unfold is_dir. destruct q as [|c q]; [done|]. cbn [stat].
  destruct (H (c :: q)) as [->|(-> & -> & _)]; done.
Qed.

Lemma only_new_dirs_off_path (p : path) (f f' : FS) (q : path) :
  only_new_dirs p f f' -> length p < length q -> f' !! q = f !! q.
Proof.
  intros H Hlen. destruct (H q) as [|(_ & _ & k & ->)]; [done|].
  rewrite length_take in Hlen. lia.
Qed.

Lemma os_mkdir_new (p : path) (w : World) :
  file_above (fs w) [] p = false ->
  exists_ (fs w) p = false ->
  exists_ (fs w) (parent p) = true ->
  os_mkdir p w =
  (Ret tt, mkWorld (<[p := Entry Dir USER]> (fs w)) (jira_gen w) (posts w) (inputs w)
                   (trace w ++ [EMkdir p])).
Proof.
  intros Ha He Hp. unfold os_mkdir, bind, get_fs. by rewrite Ha, He, Hp.
Qed.

Lemma only_new_dirs_insert (p : path) (f f1 : FS) :
  only_new_dirs (parent p) f f1 ->
  f1 !! p = None ->
  only_new_dirs p f (<[p := Entry Dir USER]> f1).
Proof.
  intros H Hp q. destruct (decide (q = p)) as [->|Hne].
  - right. rewrite lookup_insert_eq. split; [|split; [done|]].
    + destruct (H p) as [<-|(? & ? & _)]; [done|congruence].
    + exists (length p). by rewrite take_ge.
  - rewrite lookup_insert_ne by done.
    destruct (H q) as [|(? & ? & k & ->)]; [by left|right].
    split; [done|]. split; [done|]. rewrite parent_take, take_take. eauto.
Qed.

Lemma mkdir_parents_ok (depth : nat) :
  forall (p : path) (w : World),
  length p <= depth ->
  no_file_on (fs w) p = true ->
  exists w' dirs,
    mkdir_parents depth true p w = (Ret tt, w')
    /\ is_dir (fs w') p = true
    /\ only_new_dirs p (fs w) (fs w')
    /\ jira_gen w' = jira_gen w /\ posts w' = posts w /\ inputs w' = inputs w
    /\ trace w' = trace w ++ map EMkdir dirs.
Proof.
  induction depth as [|depth IH]; intros p w Hlen Hno.
  - destruct p; [|cbn in Hlen; lia]. exists w, [].
    cbn. rewrite app_nil_r. repeat split; try done. apply only_new_dirs_refl.
  - pose proof Hno as Hno'. unfold no_file_on in Hno'.
    apply andb_prop in Hno' as [Ha%negb_true_iff Hf%negb_true_iff].
    destruct (exists_ (fs w) p) eqn:He.
    + assert (is_dir (fs w) p = true) as Hd.
      { unfold exists_, is_file, is_dir in *. by destruct (stat (fs w) p) as [[[]]|]. }
      exists w, []. rewrite mkdir_parents_existing by done. rewrite app_nil_r.
      repeat split; try done. apply only_new_dirs_refl.
    + destruct (exists_ (fs w) (parent p)) eqn:Hp.
      * eexists _, [p]. cbn [mkdir_parents]. rewrite os_mkdir_new by done.
        repeat split; cbn [fs jira_gen posts inputs trace map]; try done.
        -- unfold is_dir. destruct p; [done|]. cbn [stat]. by rewrite lookup_insert_eq.
        -- apply only_new_dirs_insert; [apply only_new_dirs_refl|].
           unfold exists_ in He. destruct p; [done|]. cbn [stat] in He.
           by destruct (fs w !! (s :: p)).
      * destruct p as [|c p']; [done|].
        assert (Hlen' : length (parent (c :: p')) <= depth).
        { rewrite parent_take, length_take. cbn [length] in *. lia. }
        assert (Hno1 : no_file_on (fs w) (parent (c :: p')) = true).
        { apply no_file_on_take. intros k. rewrite parent_take, take_take.
          by apply no_file_on_take. }
        destruct (IH _ w Hlen' Hno1) as (w1 & dirs & Hrec & Hd1 & Hnew & Hg & Hpo & Hi & Ht).
        assert (Hp1 : fs w1 !! (c :: p') = None).
        { rewrite (only_new_dirs_off_path _ _ _ _ Hnew).
          - unfold exists_ in He. cbn [stat] in He. by destruct (fs w !! (c :: p')).
          - rewrite parent_take, length_take. cbn [length]. lia. }
        exists (mkWorld (<[c :: p' := Entry Dir USER]> (fs w1)) (jira_gen w1) (posts w1)
                        (inputs w1) (trace w1 ++ [EMkdir (c :: p')])), (dirs ++ [c :: p']).
        cbn [mkdir_parents]. unfold os_mkdir at 1, bind at 1, get_fs at 1.
        rewrite Ha, He, Hp. cbn [negb]. unfold raise at 1.
        unfold bind at 1. rewrite Hrec.
        unfold mkdir_here. rewrite os_mkdir_new.
        -- cbn [fs jira_gen posts inputs trace]. repeat split; try done.
           ++ unfold is_dir. cbn [stat]. by rewrite lookup_insert_eq.
           ++ by apply only_new_dirs_insert.
           ++ by rewrite Ht, map_app, <- app_assoc.
        -- rewrite (file_above_ext (fs w)); [done|].
           intros q. by eapply only_new_dirs_is_file.
        -- unfold exists_. cbn [stat]. by rewrite Hp1.
        -- by apply is_dir_exists.
Qed.

(** ** The shell profile *)

Lemma no_file_on_sub (f : FS) (p : path) (name : string) :
  no_file_on f p = true -> file_above f [] (sub p name) = false.
Proof.
  intros Hno. destruct (file_above f [] (sub p name)) eqn:E; [|done].
  apply file_above_true in E as (k & Hk & Hfile). cbn [app] in Hfile.
  unfold sub in Hk, Hfile. rewrite length_app in Hk. cbn [length] in Hk.
  rewrite take_app_le in Hfile by lia.
  rewrite no_file_on_take in Hno. by rewrite Hno in Hfile.
Qed.

(** After [mkdir] of the directory, a file inside it can be opened for
    writing unless a directory is in its place. *)
Lemma writable_after_mkdir (p : path) (name : string) (f f1 : FS) :
  no_file_on f p = true ->
  is_dir f (sub p name) = false ->
  only_new_dirs p f f1 ->
  is_dir f1 p = true ->
  writable f1 (sub p name) = true /\ f1 !! sub p name = f !! sub p name.
Proof.
  intros Hno Hd Hnew Hd1.
  assert (Hsame : f1 !! sub p name = f !! sub p name).
  { apply (only_new_dirs_off_path _ _ _ _ Hnew). unfold sub. rewrite length_app. cbn. lia. }
  split; [|done]. unfold writable.
  rewrite (file_above_ext f) by (intros q; by eapply only_new_dirs_is_file).
  rewrite no_file_on_sub by done.
  unfold is_dir in Hd |- * at 1. rewrite stat_nonroot in Hd |- * by apply sub_nonroot.
  rewrite Hsame, Hd, parent_sub. by rewrite is_dir_exists.
Qed.

Lemma install_shell_profile_spec (w : World) :
  no_file_on (fs w) CONFIG_DIR = true ->
  is_dir (fs w) (sub CONFIG_DIR "profile") = false ->
  exists w1 dirs,
    mkdir true true CONFIG_DIR w = (Ret tt, w1)
    /\ trace w1 = trace w ++ map EMkdir dirs
    /\ (is_dir (fs w) CONFIG_DIR = true -> w1 = w /\ dirs = [])
    /\ fs w1 !! sub CONFIG_DIR "profile" = fs w !! sub CONFIG_DIR "profile"
    /\ install_shell_profile w =
       (Ret tt,
        mkWorld (written (fs w1) (sub CONFIG_DIR "profile") shell_profile_template)
                (jira_gen w) (posts w) (inputs w)
                (trace w ++ map EMkdir dirs
                 ++ [EOpen (sub CONFIG_DIR "profile");
                     EWrite (sub CONFIG_DIR "profile") shell_profile_template]
                 ++ profile_instructions)).
Proof.
  intros Hno Hd.
  assert (exists w1 dirs,
            mkdir true true CONFIG_DIR w = (Ret tt, w1)
            /\ is_dir (fs w1) CONFIG_DIR = true
            /\ only_new_dirs CONFIG_DIR (fs w) (fs w1)
            /\ jira_gen w1 = jira_gen w /\ posts w1 = posts w /\ inputs w1 = inputs w
            /\ trace w1 = trace w ++ map EMkdir dirs
            /\ (is_dir (fs w) CONFIG_DIR = true -> w1 = w /\ dirs = []))
    as (w1 & dirs & Hmk & Hd1 & Hnew & Hg & Hp & Hi & Ht & Hex).
  { destruct (is_dir (fs w) CONFIG_DIR) eqn:Hcd.
    - exists w, []. rewrite mkdir_existing by done. cbn [map]. rewrite app_nil_r.
      repeat split; try done. apply only_new_dirs_refl.
    - destruct (mkdir_parents_ok (length CONFIG_DIR) CONFIG_DIR w) as (w1 & dirs & H);
        [done..|].
      exists w1, dirs. unfold mkdir. intuition congruence. }
  destruct (writable_after_mkdir _ "profile" _ _ Hno Hd Hnew Hd1) as [Hw Hsame].
  exists w1, dirs. split; [done|]. split; [done|]. split; [done|]. split; [done|].
  unfold install_shell_profile. unfold bind at 1. rewrite Hmk. cbv zeta.
  unfold bind at 1. rewrite open_w_ok by done.
  unfold bind at 1. rewrite fh_write_opened by apply sub_nonroot.
  unfold bind, log, emit. cbn [fs jira_gen posts inputs trace String.append].
  rewrite Hg, Hp, Hi, Ht. unfold profile_instructions. by rewrite <- !app_assoc.
Qed.

(** A shell profile step that returns has written the template. *)
Lemma install_shell_profile_returns (w w' : World) :
  install_shell_profile w = (Ret tt, w') ->
  exists o, fs w' !! sub CONFIG_DIR "profile"
            = Some (Entry (File shell_profile_template) o).
Proof.
  unfold install_shell_profile. cbv zeta. unfold bind at 1.
  destruct (mkdir true true CONFIG_DIR w) as [[[]|e|] w1]; [|discriminate..].
  unfold bind at 1, open_w at 1, bind at 1, get_fs at 1.
  destruct (file_above (fs w1) [] (sub CONFIG_DIR "profile")); [discriminate|].
  destruct (is_dir (fs w1) (sub CONFIG_DIR "profile")); [discriminate|].
  destruct (negb (exists_ (fs w1) (parent (sub CONFIG_DIR "profile")))); [discriminate|].
  unfold bind at 1, emit at 1, set_fs at 1. cbn [fs jira_gen posts inputs trace].
  fold (written (fs w1) (sub CONFIG_DIR "profile") "").
  unfold bind at 1. rewrite fh_write_opened by apply sub_nonroot.
  unfold bind, log, emit. cbn [fs jira_gen posts inputs trace String.append].
  intros [= <-]. cbn [fs]. unfold written. rewrite lookup_insert_eq. eauto.
Qed.

(** C9: [install_shell_profile] tests nothing.  Whatever the profile file
    holds, and whether it exists or not, the step opens it for writing and
    writes the template: afterwards the file holds the template and
    nothing of what it held before.  (The filesystem must allow the write:
    no regular file on the way to the configuration directory, no
    directory in place of the profile.)  And from no world at all does the
    step return without having written the template: there is no path
    that skips the write. *)
Theorem install_shell_profile_always_overwrites (w : World) :
  no_file_on (fs w) CONFIG_DIR = true ->
  is_dir (fs w) (sub CONFIG_DIR "profile") = false ->
  let profile := sub CONFIG_DIR "profile" in
  (exists w' dirs,
     install_shell_profile w = (Ret tt, w')
     /\ trace w' = trace w ++ map EMkdir dirs
                   ++ [EOpen profile; EWrite profile shell_profile_template]
                   ++ profile_instructions
     /\ (is_dir (fs w) CONFIG_DIR = true -> dirs = [])
     /\ filter is_write (since w w') = [EWrite profile shell_profile_template]
     /\ read (fs w') profile = Some shell_profile_template
     /\ (forall old, read (fs w) profile = Some old ->
         read (fs w') profile = Some shell_profile_template))
  /\ (forall v v', install_shell_profile v = (Ret tt, v') ->
                   read (fs v') profile = Some shell_profile_template).
Proof.
  intros Hno Hd profile. split.
  - destruct (install_shell_profile_spec w Hno Hd) as (w1 & dirs & _ & _ & Hex & _ & Hrun).
    eexists _, dirs. split; [exact Hrun|]. cbn [fs trace].
    split; [done|]. split; [intros H; by apply Hex|].
    split.
    + erewrite since_app by (cbn [trace]; reflexivity).
      rewrite !filter_app. replace (filter is_write (map EMkdir dirs)) with (@nil event).
      * reflexivity.
      * clear. induction dirs as [|x dirs IH]; [done|]. cbn [map].
        rewrite filter_cons_False; [done|]. by intros [].
    + split; [|intros _ _]; apply read_written, sub_nonroot.
  - intros v v' [o Ho]%install_shell_profile_returns.
    unfold read, profile. rewrite stat_nonroot by apply sub_nonroot. by rewrite Ho.
Qed.

(** ** Steps that act although their test succeeds *)

Lemma begins_bind (pre : list event) {A B} (m : M A) (k : A -> M B) :
  begins pre m -> (forall a, quiet (k a)) -> begins pre (bind m k).
Proof.
  intros Hm Hk w. destruct (Hm w) as (r & w1 & d & E & Ht). unfold bind. rewrite E.
  destruct r as [a|e|]; [|by eauto..].
  destruct (k a w1) as [r2 w2] eqn:E2.
  destruct (Hk a _ _ _ E2) as (d2 & Ht2 & _).
  exists r2, w2, (d ++ d2). split; [done|]. by rewrite Ht2, Ht, <- !app_assoc.
Qed.

Lemma begins_invoke (i : invocation) : begins [ERun i] (invoke i).
Proof.
  intros w. unfold invoke, bind, emit, get_fs. cbn [fs jira_gen posts inputs trace].
  destruct (sh i (fs w)) as [f'|]; eexists _, _, []; (split; [reflexivity|]);
    cbn [trace set_fs snd]; by rewrite app_nil_r.
Qed.

(** With the virtualenv in place its creation is skipped with a warning;
    the step goes on to the [pip install] commands all the same. *)
Lemma setup_mongo_repo_env_venv_present (w : World) :
  exists_ (fs w) (sub (sub REPO_ROOT "mongo") "python3-venv") = true ->
  exists r w' d,
    setup_mongo_repo_env w = (r, w')
    /\ trace w' = trace w
                  ++ [ELog Warning
                        "Found existing Python3 virtualenv at %s, skipping creating a new one"
                        [str_path (sub (sub REPO_ROOT "mongo") "python3-venv")];
                      ERun pip_requirements]
                  ++ d.
Proof.
  intros Hg. unfold setup_mongo_repo_env. cbv zeta.
  unfold bind at 1, get_fs at 1. rewrite Hg. cbn [negb].
  unfold bind at 1, log at 1, emit at 1. unfold bind at 1, get_fs at 1.
  cbn [fs jira_gen posts inputs trace app].
  unfold run_cmds at 1. cbn [for_each]. unfold ctx_run at 1. fold pip_requirements.
  match goal with |- exists r w' d, ?m ?w0 = _ /\ _ =>
    assert (begins [ERun pip_requirements] m) as Hb
  end.
  { apply begins_bind; [|intros ?; quiet_tac].
    apply begins_bind; [|intros ?; quiet_tac].
    apply begins_bind; [|intros ?; quiet_tac].
    apply begins_invoke. }
  match goal with |- exists r w' d, ?m ?w0 = _ /\ _ =>
    destruct (Hb w0) as (r & w' & d & E & Ht)
  end.
  exists r, w', d. split; [done|]. rewrite Ht. cbn [trace]. by rewrite <- !app_assoc.
Qed.

Lemma call_logged {A} (m : M A) (a : A) (w : World) (d : list event) :
  m w = (Ret a, logged w d) -> call m w = (Ret tt, logged w d).
Proof. intros H. unfold call, bind. by rewrite H. Qed.

Lemma guard_clone_repos (f : FS) :
  guard CloneRepos f = true ->
  is_dir f REPO_ROOT = true
  /\ forallb (fun rc => exists_ f (under REPO_ROOT (relative_local rc))) REQUIRED_REPOS = true.
Proof. cbn [guard]. by intros [? ?]%andb_prop. Qed.

(** The steps whose test, once true, leaves them nothing to do but log. *)
Lemma guarded_step_only_logs (s : step_id) (fuel : nat) (w : World) :
  skips_everything s = true ->
  guard s (fs w) = true ->
  exists d, action s fuel w = (Ret tt, logged w d) /\ forallb is_log d = true.
Proof.
  intros Hs Hg. destruct s; try discriminate Hs; cbn [action guard] in *.
  - apply andb_prop in Hg as [Hd Hk]. eexists. split; [by apply ssh_keys_found_key|done].
  - eexists. split; [by eapply call_logged, create_dir_owned|done].
  - eexists. split; [by eapply call_logged, evergreen_yaml_found_file|done].
  - apply guard_clone_repos in Hg as [Hd Hall].
    eexists. split; [by apply clone_repos_present|].
    cbn [forallb is_log andb]. clear. induction REQUIRED_REPOS as [|rc l IH]; [done|]. done.
  - eexists. split; [by apply download_clang_format_present|done].
  - eexists. split; [by apply download_eslint_present|done].
Qed.

Lemma only_logs_no_side_effects (d : list event) :
  forallb is_log d = true -> side_effects d = [].
Proof.
  unfold side_effects. induction d as [|e d IH]; [done|]. cbn [forallb].
  intros [He Hd]%andb_prop. rewrite filter_cons_False; [by apply IH|].
  destruct e; try discriminate He. intros [].
Qed.

(** C1, as the code has it: for [ssh_keys], [create_dir], [evergreen_yaml],
    [clone_repos], [download_clang_format] and [download_eslint] a test
    that succeeds leaves the step nothing to do but log, and the step
    returns: no file is written, no command is run, the filesystem is as
    before.  [download_evergreen] skips the download and still runs
    [chmod +x evergreen]; [install_ninja] tests by running
    [ninja --version] and runs nothing else; [setup_mongo_repo_env] skips
    the creation of the virtualenv and goes on to [pip install]. *)
Theorem guarded_steps_side_effects (s : step_id) (fuel : nat) (w : World) :
  guard s (fs w) = true ->
  match s with
  | DownloadEvergreen =>
      exists r w', action s fuel w = (r, w')
                   /\ side_effects (since w w') = [ERun chmod_evergreen]
  | InstallNinja =>
      exists w', action s fuel w = (Ret tt, w')
                 /\ side_effects (since w w') = [ERun ninja_version]
  | SetupMongoRepoEnv =>
      exists r w' d, action s fuel w = (r, w')
                     /\ side_effects (since w w') = ERun pip_requirements :: d
  | _ =>
      exists d, action s fuel w = (Ret tt, logged w d)
                /\ forallb is_log d = true
                /\ side_effects (since w (logged w d)) = []
                /\ fs (logged w d) = fs w
  end.
Proof.
  intros Hg.
  destruct (skips_everything s) eqn:Hs.
  - destruct (guarded_step_only_logs s fuel w Hs Hg) as (d & Hrun & Hd).
    assert (exists d, action s fuel w = (Ret tt, logged w d)
                      /\ forallb is_log d = true
                      /\ side_effects (since w (logged w d)) = []
                      /\ fs (logged w d) = fs w) as H.
    { exists d. rewrite since_logged. by auto using only_logs_no_side_effects. }
    by destruct s.
  - destruct s; try discriminate Hs; cbn [action guard] in *.
    + eexists _, _. split; [by apply download_evergreen_present|].
      by erewrite since_app by (cbn [trace]; reflexivity).
    + apply bool_decide_eq_true in Hg as [f' Hf'].
      eexists. split; [by apply install_ninja_present|].
      by erewrite since_app by (cbn [trace]; reflexivity).
    + destruct (setup_mongo_repo_env_venv_present w Hg) as (r & w' & d & Hrun & Ht).
      exists r, w', (side_effects d). split; [done|].
      erewrite since_app by exact Ht. unfold side_effects. by rewrite filter_app.
Qed.

(** C8, as the code has it: with its test true, [create_dir],
    [download_clang_format], [download_eslint], [download_evergreen] and
    [install_ninja] log one warning, [setup_mongo_repo_env] starts with
    one and [clone_repos] logs two for each repository; [ssh_keys] and
    [evergreen_yaml] log their two lines at info level and no warning. *)
Theorem guarded_steps_message_level (s : step_id) (fuel : nat) (w : World) :
  guard s (fs w) = true ->
  exists r w',
    action s fuel w = (r, w')
    /\ match s with
       | SshKeys | EvergreenYaml =>
           warnings (since w w') = []
           /\ exists m1 m2, since w w' = [ELog Info m1 []; ELog Info m2 []]
       | CloneRepos =>
           warnings (since w w') = flat_map clone_skip_lines REQUIRED_REPOS
       | SetupMongoRepoEnv =>
           exists msg args d, since w w' = ELog Warning msg args :: d
       | _ =>
           exists msg args, warnings (since w w') = [ELog Warning msg args]
       end.
Proof.
  intros Hg. destruct s; cbn [action guard] in *.
  - apply andb_prop in Hg as [Hd Hk]. eexists _, _.
    split; [by apply ssh_keys_found_key|]. rewrite since_logged. eauto.
  - eexists _, _. split; [by eapply call_logged, create_dir_owned|].
    rewrite since_logged. eauto.
  - eexists _, _. split; [by eapply call_logged, evergreen_yaml_found_file|].
    rewrite since_logged. eauto.
  - apply guard_clone_repos in Hg as [Hd Hall]. eexists _, _.
    split; [by apply clone_repos_present|]. rewrite since_logged.
    unfold warnings. rewrite filter_cons_False by (by intros []).
    clear. induction REQUIRED_REPOS as [|rc l IH]; [done|].
    cbn [flat_map]. rewrite filter_app, IH. reflexivity.
  - eexists _, _. split; [by apply download_clang_format_present|].
    rewrite since_logged. eauto.
  - eexists _, _. split; [by apply download_eslint_present|].
    rewrite since_logged. eauto.
  - eexists _, _. split; [by apply download_evergreen_present|].
    erewrite since_app by (cbn [trace]; reflexivity). eauto.
  - apply bool_decide_eq_true in Hg as [f' Hf']. eexists _, _.
    split; [by apply install_ninja_present|].
    erewrite since_app by (cbn [trace]; reflexivity). eauto.
  - destruct (setup_mongo_repo_env_venv_present w Hg) as (r & w' & d & Hrun & Ht).
    exists r, w'. split; [done|]. erewrite since_app by exact Ht. cbn [app]. eauto.
Qed.

(** ** A second run *)

Lemma logged_logged (w : World) (d1 d2 : list event) :
  logged (logged w d1) d2 = logged w (d1 ++ d2).
Proof. unfold logged. cbn [fs jira_gen posts inputs trace]. by rewrite <- app_assoc. Qed.

Lemma emit_logged (e : event) (w : World) : emit e w = (Ret tt, logged w [e]).
Proof. reflexivity. Qed.

(** A command that succeeds and leaves the filesystem as it was. *)
Lemma invoke_settled (i : invocation) (w : World) :
  sh i (fs w) = Some (fs w) -> invoke i w = (Ret (i_cmd i), logged w [ERun i]).
Proof.
  intros Hs. unfold invoke, bind, emit, get_fs. cbn [fs jira_gen posts inputs trace].
  by rewrite Hs.
Qed.

Lemma run_cmds_settled (cwd : option path) (prefix cmds : list string) (w : World) :
  Forall (fun c => sh (Invocation false cwd prefix c) (fs w) = Some (fs w)) cmds ->
  run_cmds cwd prefix cmds w = (Ret tt, logged w (flat_map (ran cwd prefix) cmds)).
Proof.
  intros Hall. revert w Hall. induction cmds as [|c cmds IH]; intros w Hall.
  - cbn. unfold logged. rewrite app_nil_r. by destruct w.
  - apply Forall_cons in Hall as [Hc Hall]. unfold run_cmds in *. cbn [for_each].
    unfold bind at 1 2, ctx_run. rewrite invoke_settled by done.
    unfold log. rewrite emit_logged, logged_logged.
    rewrite IH by done. rewrite logged_logged. reflexivity.
Qed.

Lemma setup_mongo_repo_env_settled (w : World) :
  exists_ (fs w) (sub (sub REPO_ROOT "mongo") "python3-venv") = true ->
  exists_ (fs w) (sub (sub REPO_ROOT "mongo") "build.ninja") = true ->
  sh pip_requirements (fs w) = Some (fs w) ->
  sh pip_regex (fs w) = Some (fs w) ->
  sh ninja_compiledb (fs w) = Some (fs w) ->
  setup_mongo_repo_env w =
  (Ret tt,
   logged w ([ELog Warning "Found existing Python3 virtualenv at %s, skipping creating a new one"
                   [str_path (sub (sub REPO_ROOT "mongo") "python3-venv")]]
             ++ [ERun pip_requirements; ELog Info "Ran cmd: %s" [i_cmd pip_requirements];
                 ERun pip_regex; ELog Info "Ran cmd: %s" [i_cmd pip_regex]]
             ++ [ERun ninja_compiledb; ELog Info "Ran cmd: %s" [i_cmd ninja_compiledb]])).
Proof.
  intros Hv Hb H1 H2 H3. unfold setup_mongo_repo_env. cbv zeta.
  unfold bind at 1, get_fs at 1. rewrite Hv. cbn [negb].
  unfold bind at 1, log at 1. rewrite emit_logged.
  unfold bind at 1, get_fs at 1. cbn [fs logged]. rewrite Hb. cbn [negb app].
  unfold bind at 1. rewrite run_cmds_settled by (repeat constructor; done).
  rewrite logged_logged. rewrite run_cmds_settled by (repeat constructor; done).
  rewrite logged_logged. reflexivity.
Qed.

Lemma install_githooks_settled :
  exists d,
    forallb is_log d = true
    /\ forall w,
         is_dir (fs w) (sub HOME ".githooks") = true ->
         exists_ (fs w) (sub (sub HOME ".githooks") "mongo") = true ->
         sh install_hooks (fs w) = Some (fs w) ->
         install_githooks w = (Ret tt, logged w (ERun install_hooks :: d)).
Proof.
  eexists. split; [|intros w Hd Hl Hs].
  2:{ unfold install_githooks. cbv zeta.
      unfold bind at 1. rewrite mkdir_existing by done.
      unfold bind at 1, get_fs at 1. rewrite Hl. cbn [negb].
      unfold bind at 1, ret at 1. unfold bind at 1, ctx_run.
      fold install_hooks. rewrite invoke_settled by done.
      unfold bind, log. rewrite !emit_logged, !logged_logged. reflexivity. }
  done.
Qed.

Lemma install_shell_profile_settled (w : World) (o : string) :
  is_dir (fs w) CONFIG_DIR = true ->
  no_file_on (fs w) CONFIG_DIR = true ->
  fs w !! sub CONFIG_DIR "profile" = Some (Entry (File shell_profile_template) o) ->
  install_shell_profile w =
  (Ret tt,
   logged w ([EOpen (sub CONFIG_DIR "profile");
              EWrite (sub CONFIG_DIR "profile") shell_profile_template]
             ++ profile_instructions)).
Proof.
  intros Hd Hno Hp.
  destruct (install_shell_profile_spec w) as (w1 & dirs & _ & _ & Hex & _ & Hrun); [done|..].
  { unfold is_dir. rewrite stat_nonroot by apply sub_nonroot. by rewrite Hp. }
  destruct (Hex Hd) as [-> ->]. rewrite Hrun. unfold logged. do 2 f_equal.
  unfold written, owner. rewrite stat_nonroot by apply sub_nonroot.
  rewrite Hp. cbn. by apply insert_id.
Qed.

Lemma log_multiline_logged (lvl : level) (lines : list string) (w : World) :
  log_multiline lvl lines w = (Ret tt, logged w (map (fun l => ELog lvl l []) lines)).
Proof.
  unfold log_multiline. revert w. induction lines as [|l lines IH]; intros w.
  - cbn. unfold logged. rewrite app_nil_r. by destruct w.
  - cbn [for_each map]. unfold bind, log. rewrite emit_logged, IH, logged_logged.
    reflexivity.
Qed.

Lemma post_task_instructions_logged :
  exists d,
    forallb is_log d = true
    /\ forall w, post_task_instructions w = (Ret tt, logged w d).
Proof.
  eexists. split; [|intros w].
  2:{ unfold post_task_instructions. cbv zeta. rewrite log_multiline_logged. reflexivity. }
  done.
Qed.

(** A run of steps each of which only adds to the trace. *)
Lemma run_steps_logged (l : list (Step * list event)) (w : World) :
  Forall (fun sd : Step * list event =>
            forall w0, fs w0 = fs w -> fst (fst sd) w0 = (Ret tt, logged w0 (snd sd))) l ->
  run_steps (map fst l) w = (Ret tt, logged w (flat_map step_trace l)).
Proof.
  intros Hall. revert w Hall. induction l as [|[s d] l IH]; intros w Hall.
  - cbn. unfold logged. rewrite app_nil_r. by destruct w.
  - apply Forall_cons in Hall as [Hs Hall]. cbn [map]. rewrite run_steps_cons.
    cbn [fst snd] in *. unfold bind at 1, log_func, bind at 1.
    rewrite emit_logged. unfold bind at 1. rewrite Hs by done.
    rewrite emit_logged, !logged_logged. rewrite IH.
    + rewrite logged_logged. reflexivity.
    + eapply Forall_impl; [exact Hall|]. intros sd H w0 Hw0. apply H. by rewrite Hw0.
Qed.

Lemma funcs_last_two (fuel : nat) :
  funcs fuel =
  take 12 (funcs fuel)
  ++ [(install_shell_profile, "Install Shell Profile");
      (post_task_instructions, "Post Setup Instructions")].
Proof. reflexivity. Qed.

(** A run that finishes leaves the template in the profile file. *)
Lemma macos_leaves_profile (fuel : nat) (w w' : World) :
  macos fuel w = (Ret tt, w') ->
  exists o, fs w' !! sub CONFIG_DIR "profile"
            = Some (Entry (File shell_profile_template) o).
Proof.
  unfold macos. rewrite funcs_last_two, run_steps_app. unfold bind at 1.
  destruct (run_steps (take 12 (funcs fuel)) w) as [[[]|e|] wa]; [|discriminate..].
  rewrite !run_steps_cons. cbn [fst snd]. unfold bind at 1, log_func at 1, bind at 1.
  rewrite emit_logged. unfold bind at 1.
  destruct (install_shell_profile (logged wa _)) as [[[]|e|] wb] eqn:E; [|discriminate..].
  apply install_shell_profile_returns in E as [o Ho].
  rewrite emit_logged, run_steps_cons. cbn [fst snd].
  unfold bind at 1, log_func at 1, bind at 1.
  rewrite emit_logged. unfold bind at 1.
  destruct post_task_instructions_logged as (d & _ & Hpost). rewrite Hpost.
  rewrite emit_logged. unfold run_steps. cbn [for_each]. unfold ret.
  intros [= <-]. cbn [fs logged]. eauto.
Qed.

Lemma side_effects_app (d1 d2 : list event) :
  side_effects (d1 ++ d2) = side_effects d1 ++ side_effects d2.
Proof. apply filter_app. Qed.

Lemma provisioned_guards (f : FS) :
  provisioned f = true ->
  (is_dir f (sub HOME ".ssh") = true /\ is_file f SSH_KEY_FILE = true)
  /\ guard (CreateDir ["data"]) f = true
  /\ guard (CreateDir ["opt"; "mongodbtoolchain"]) f = true
  /\ guard (CreateDir (sub HOME "bin")) f = true
  /\ exists_ f EVG_CONFIG_FILE = true
  /\ (is_dir f REPO_ROOT = true
      /\ forallb (fun rc => exists_ f (under REPO_ROOT (relative_local rc))) REQUIRED_REPOS = true)
  /\ exists_ f (sub (sub HOME "bin") "clang-format") = true
  /\ exists_ f (sub (sub HOME "bin") "eslint") = true
  /\ exists_ f (sub (sub HOME "bin") "evergreen") = true
  /\ exists_ f (sub (sub REPO_ROOT "mongo") "python3-venv") = true
  /\ exists_ f (sub (sub REPO_ROOT "mongo") "build.ninja") = true
  /\ is_dir f (sub HOME ".githooks") = true
  /\ exists_ f (sub (sub HOME ".githooks") "mongo") = true
  /\ is_dir f CONFIG_DIR = true
  /\ no_file_on f CONFIG_DIR = true.
Proof.
  unfold provisioned. rewrite !andb_true_iff. cbn [guard]. rewrite !andb_true_iff.
  intuition.
Qed.

(** A computation is determined by its result and its final world. *)
Lemma result_and_world {A} (m : M A) (w : World) (r : result A) :
  fst (m w) = r -> m w = (r, snd (m w)).
Proof. intros <-. by destruct (m w). Qed.

(** C2, as the code has it: a second run, started where a finished first
    run left the machine, with every test of the sequence succeeding and
    the six commands that no test holds back succeeding without a change
    to the filesystem, ends [Finished] and leaves the filesystem as it
    found it; but it is not free of side effects: it runs those six
    commands again and opens and rewrites the shell profile (with the
    template that the first run had left there). *)
Theorem second_run_repeats_unguarded_effects (fuel : nat) (w0 w1 : World) :
  macos fuel w0 = (Ret tt, w1) ->
  provisioned (fs w1) = true ->
  Forall (fun i => sh i (fs w1) = Some (fs w1)) unguarded_commands ->
  exists w2,
    macos fuel w1 = (Ret tt, w2)
    /\ final_state (fst (macos fuel w1)) = Finished
    /\ fs w2 = fs w1
    /\ side_effects (since w1 w2) = rerun_effects.
Proof.
  intros Hfirst Hprov Hsh.
  apply macos_leaves_profile in Hfirst as [o Hprofile].
  apply provisioned_guards in Hprov
    as ([Hssh Hkey] & Hd1 & Hd2 & Hd3 & Hevg & [Hroot Hrepos] & Hclang & Heslint & Hever
        & Hvenv & Hbuild & Hhooks & Hlink & Hconf & Hno).
  unfold unguarded_commands in Hsh.
  repeat (apply Forall_cons in Hsh as [? Hsh]).
  destruct install_githooks_settled as (dg & Hdg & Hgit).
  destruct post_task_instructions_logged as (dp & Hdp & Hpost).
  pose (l := [
    ((ssh_keys, "Configure SSH Keys"),
     [ELog Info "Found existing key ~/.ssh/id_rsa, skipping setting up ssh keys" [];
      ELog Info "Please ensure your keys are added to your GitHub account" []]);
    ((call (create_dir ["data"]), "Create MongoDB Data Directory"),
     [ELog Warning ("Directory " +:+ str_path ["data"]
                    +:+ " exists and is owned by the current user, skipping creation") []]);
    ((call (create_dir ["opt"; "mongodbtoolchain"]), "Create MongoDB Toolchain Directory"),
     [ELog Warning ("Directory " +:+ str_path ["opt"; "mongodbtoolchain"]
                    +:+ " exists and is owned by the current user, skipping creation") []]);
    ((call (create_dir (sub HOME "bin")), "Create User bin Directory"),
     [ELog Warning ("Directory " +:+ str_path (sub HOME "bin")
                    +:+ " exists and is owned by the current user, skipping creation") []]);
    ((call (evergreen_yaml fuel), "Configure Evergeen"),
     [ELog Info "Found existing ~/.evergreen.yml, skipping adding Evergreen configuration" [];
      ELog Info ("Please ensure your ~/.evergreen.yml was generated by this tool. If not, "
                 +:+ "make sure you know what's in there") []]);
    ((clone_repos, "Clone MongoDB Repositories"),
     ELog Info "Placing MongoDB Git repositories in %s" [str_path REPO_ROOT]
     :: flat_map clone_skip_lines REQUIRED_REPOS);
    ((download_clang_format, "Download clang-format"),
     [ELog Warning "File %s already exists. Skipping install"
           [str_path (sub (sub HOME "bin") "clang-format")]]);
    ((download_eslint, "Download eslint"),
     [ELog Warning "File/Directory %s already exists. Skipping install"
           [str_path (sub (sub HOME "bin") "eslint")]]);
    ((download_evergreen, "Download evergreen CLI"),
     [ELog Warning "File %s already exists. Skipping downloading evergreen CLI"
           [str_path (sub (sub HOME "bin") "evergreen")];
      ERun chmod_evergreen]);
    ((install_ninja, "Install ninja"),
     [ERun ninja_version;
      ELog Warning "ninja appears to be already installed, skipping install" []]);
    ((setup_mongo_repo_env, "Setup the mongo Repository"),
     [ELog Warning "Found existing Python3 virtualenv at %s, skipping creating a new one"
           [str_path (sub (sub REPO_ROOT "mongo") "python3-venv")]]
     ++ [ERun pip_requirements; ELog Info "Ran cmd: %s" [i_cmd pip_requirements];
         ERun pip_regex; ELog Info "Ran cmd: %s" [i_cmd pip_regex]]
     ++ [ERun ninja_compiledb; ELog Info "Ran cmd: %s" [i_cmd ninja_compiledb]]);
    ((install_githooks, "Install Git Hooks"), ERun install_hooks :: dg);
    ((install_shell_profile, "Install Shell Profile"),
     [EOpen (sub CONFIG_DIR "profile");
      EWrite (sub CONFIG_DIR "profile") shell_profile_template]
     ++ profile_instructions);
    ((post_task_instructions, "Post Setup Instructions"), dp) ] : list (Step * list event)).
  assert (Hrun : macos fuel w1 = (Ret tt, logged w1 (flat_map step_trace l))).
  { unfold macos. change (funcs fuel) with (map fst l). apply run_steps_logged.
    repeat apply Forall_cons_2; try apply Forall_nil_2; intros w Hw; cbn [fst snd];
      rewrite <- Hw in *.
    - by apply ssh_keys_found_key.
    - by eapply call_logged, create_dir_owned.
    - by eapply call_logged, create_dir_owned.
    - by eapply call_logged, create_dir_owned.
    - by eapply call_logged, evergreen_yaml_found_file.
    - by apply clone_repos_present.
    - by apply download_clang_format_present.
    - by apply download_eslint_present.
    - rewrite download_evergreen_present by done.
      match goal with H : sh chmod_evergreen _ = _ |- _ => by rewrite H end.
    - by apply install_ninja_present.
    - by apply setup_mongo_repo_env_settled.
    - by apply Hgit.
    - by eapply install_shell_profile_settled.
    - apply Hpost. }
  exists (logged w1 (flat_map step_trace l)). rewrite Hrun.
  split; [done|]. split; [done|]. split; [done|].
  rewrite since_logged. unfold l. cbn [flat_map step_trace fst snd].
  rewrite !side_effects_app. cbn [app].
  change (ELog Info "Placing MongoDB Git repositories in %s" [str_path REPO_ROOT]
          :: flat_map clone_skip_lines REQUIRED_REPOS)
    with ([ELog Info "Placing MongoDB Git repositories in %s" [str_path REPO_ROOT]]
          ++ flat_map clone_skip_lines REQUIRED_REPOS).
  change (ERun install_hooks :: dg) with ([ERun install_hooks] ++ dg).
  unfold step_trace. cbn [fst snd]. rewrite ?side_effects_app.
  rewrite (only_logs_no_side_effects dg), (only_logs_no_side_effects dp) by done.
  rewrite (only_logs_no_side_effects (flat_map clone_skip_lines REQUIRED_REPOS)).
  - reflexivity.
  - clear. induction REQUIRED_REPOS as [|rc rs IH]; done.
Qed.

End Proofs.

(** ** Further properties of the steps *)

Section Further.

Context {cfg : Config} {tpl : Templates} {env : Env}.

(** *** Commands *)

Lemma invoke_ok (i : invocation) (w : World) (f' : FS) :
  sh i (fs w) = Some f' ->
  invoke i w =
  (Ret (i_cmd i), mkWorld f' (jira_gen w) (posts w) (inputs w) (trace w ++ [ERun i])).
Proof.
  intros Hs. unfold invoke, bind, emit, get_fs. cbn [fs jira_gen posts inputs trace].
  by rewrite Hs.
Qed.

Lemma invoke_fails (i : invocation) (w : World) :
  sh i (fs w) = None ->
  invoke i w = (Raise (UnexpectedExit i), logged w [ERun i]).
Proof.
  intros Hs. unfold invoke, bind, emit, get_fs. cbn [fs jira_gen posts inputs trace].
  by rewrite Hs.
Qed.

(** [create_dir] where the directory is missing or belongs to someone
    else: [sudo mkdir -p], then [sudo chown], then one info line and the
    value [None]; a command that fails ends the step there. *)
Theorem create_dir_creates (d : path) (w : World) :
  exists_ (fs w) d && bool_decide (owner (fs w) d = Some USER) = false ->
  match sh (sudo_mkdir d) (fs w) with
  | None =>
      create_dir d w = (Raise (UnexpectedExit (sudo_mkdir d)), logged w [ERun (sudo_mkdir d)])
  | Some f1 =>
      match sh (sudo_chown d) f1 with
      | None =>
          create_dir d w =
          (Raise (UnexpectedExit (sudo_chown d)),
           mkWorld f1 (jira_gen w) (posts w) (inputs w)
                   (trace w ++ [ERun (sudo_mkdir d); ERun (sudo_chown d)]))
      | Some f2 =>
          create_dir d w =
          (Ret None,
           mkWorld f2 (jira_gen w) (posts w) (inputs w)
                   (trace w ++ [ERun (sudo_mkdir d); ERun (sudo_chown d);
                                ELog Info ("Created directory " +:+ str_path d) []]))
      end
  end.
Proof.
  intros Hg.
  assert (Hbody : create_dir d w =
                  (invoke (sudo_mkdir d) ;;
                   invoke (sudo_chown d) ;;
                   log Info ("Created directory " +:+ str_path d) [] ;;
                   ret None) w).
  { unfold create_dir, bind at 1, get_fs at 1. by rewrite Hg. }
  rewrite Hbody. clear Hbody.
  destruct (sh (sudo_mkdir d) (fs w)) as [f1|] eqn:E1.
  - destruct (sh (sudo_chown d) f1) as [f2|] eqn:E2;
      unfold bind at 1; rewrite (invoke_ok _ _ _ E1); unfold bind at 1.
    + erewrite (invoke_ok _ _ f2); [|exact E2].
      unfold bind, log, emit, ret. cbn [fs jira_gen posts inputs trace].
      by rewrite <- !app_assoc.
    + erewrite invoke_fails; [|exact E2]. unfold logged.
      cbn [fs jira_gen posts inputs trace]. by rewrite <- !app_assoc.
  - unfold bind at 1. by rewrite invoke_fails.
Qed.

(** [install_ninja]: [brew install ninja] is run exactly when
    [ninja --version] fails; the failure of the probe itself is never
    raised, that of the installation is. *)
Theorem install_ninja_outcomes (w : World) :
  match sh ninja_version (fs w) with
  | Some f' =>
      install_ninja w =
      (Ret tt,
       mkWorld f' (jira_gen w) (posts w) (inputs w)
               (trace w ++ [ERun ninja_version;
                            ELog Warning "ninja appears to be already installed, skipping install" []]))
  | None =>
      match sh brew_install_ninja (fs w) with
      | Some f' =>
          install_ninja w =
          (Ret tt,
           mkWorld f' (jira_gen w) (posts w) (inputs w)
                   (trace w ++ [ERun ninja_version; ERun brew_install_ninja]))
      | None =>
          install_ninja w =
          (Raise (UnexpectedExit brew_install_ninja),
           logged w [ERun ninja_version; ERun brew_install_ninja])
      end
  end.
Proof.
  destruct (sh ninja_version (fs w)) as [f'|] eqn:E1; [by apply install_ninja_present|].
  unfold install_ninja, try_unexpected_exit, ctx_run. fold ninja_version brew_install_ninja.
  rewrite invoke_fails by done. unfold bind.
  destruct (sh brew_install_ninja (fs w)) as [f'|] eqn:E2.
  - erewrite (invoke_ok _ _ f'); [|exact E2]. unfold ret.
    cbn [fs jira_gen posts inputs trace logged]. by rewrite <- !app_assoc.
  - erewrite invoke_fails; [|exact E2]. by rewrite logged_logged.
Qed.


(** *** Sequences of commands *)

Lemma run_cmds_ok (cwd : option path) (prefix cmds : list string) (w : World) (f' : FS) :
  sh_all (map (Invocation false cwd prefix) cmds) (fs w) = Some f' ->
  run_cmds cwd prefix cmds w =
  (Ret tt,
   mkWorld f' (jira_gen w) (posts w) (inputs w)
           (trace w ++ flat_map (fun c => ran_invocation (Invocation false cwd prefix c)) cmds)).
Proof.
  revert w. induction cmds as [|c cmds IH]; intros w Hall.
  - cbn in Hall. injection Hall as <-. cbn. rewrite app_nil_r. by destruct w.
  - cbn [map sh_all] in Hall.
    destruct (sh (Invocation false cwd prefix c) (fs w)) as [f1|] eqn:E; [|done].
    unfold run_cmds in *. cbn [for_each]. unfold bind at 1 2, ctx_run.
    rewrite (invoke_ok _ _ _ E). unfold log, emit. cbn [fs jira_gen posts inputs trace i_cmd].
    rewrite IH by done. cbn [fs jira_gen posts inputs trace flat_map].
    unfold ran_invocation at 2. cbn [i_cmd]. by rewrite <- !app_assoc.
Qed.


Lemma sh_all_app (c1 c2 : list invocation) (f f' : FS) :
  sh_all (c1 ++ c2) f = Some f' <->
  exists f1, sh_all c1 f = Some f1 /\ sh_all c2 f1 = Some f'.
Proof.
  revert f. induction c1 as [|i c1 IH]; intros f; cbn [app sh_all].
  - split; [eauto|]. by intros (f1 & [= <-] & H).
  - destruct (sh i f) as [f0|]; [apply IH|]. split; [done|]. by intros (? & ? & _).
Qed.

(** The commands [cmds], run one after the other through [ctx.run] with
    their values dropped, when all of them succeed. *)
Lemma invoke_all_ok (cmds : list invocation) (w : World) (f' : FS) :
  sh_all cmds (fs w) = Some f' ->
  for_each (fun i => invoke i ;; ret tt) cmds w =
  (Ret tt, mkWorld f' (jira_gen w) (posts w) (inputs w) (trace w ++ map ERun cmds)).
Proof.
  revert w. induction cmds as [|i cmds IH]; intros w Hall.
  - cbn in Hall. injection Hall as <-. cbn. rewrite app_nil_r. by destruct w.
  - cbn [sh_all] in Hall. destruct (sh i (fs w)) as [f1|] eqn:E; [|done].
    cbn [for_each]. unfold bind at 1 2. rewrite (invoke_ok _ _ _ E). unfold ret at 1.
    rewrite IH by done. cbn [fs jira_gen posts inputs trace map]. by rewrite <- !app_assoc.
Qed.

(** *** Downloads *)

(** The part of [_download_executable_tarball] after its test. *)
Lemma download_executable_tarball_absent
    (dc : DownloadConfig) (default_name pretty_name : string) (w : World) :
  exists_ (fs w) (sub (sub HOME "bin") pretty_name) = false ->
  _download_executable_tarball dc default_name pretty_name w =
  (_do_download (mkDownloadConfig (remote dc) ["bin"; pretty_name +:+ ".tar.xz"]) ;;
   for_each (fun i => invoke i ;; ret tt) (unpack default_name pretty_name)) w.
Proof.
  intros Hno. unfold _download_executable_tarball. cbv zeta.
  unfold bind at 1, get_fs at 1. rewrite Hno.
  unfold unpack, ctx_run. cbn [for_each]. unfold bind.
  destruct (_do_download _ w) as [[[]|e|] w1]; [|done..].
  unfold ret.
  repeat (destruct (invoke _ _) as [[?|?|] ?]; cbv beta iota; [|done..]). done.
Qed.

(** A tarball that is already there is not downloaded again:
    [_download_executable_tarball] warns and unpacks what it finds. *)
Theorem download_executable_tarball_reuses_tarball
    (dc : DownloadConfig) (default_name pretty_name : string) (w : World) (f' : FS) :
  exists_ (fs w) (sub (sub HOME "bin") pretty_name) = false ->
  exists_ (fs w) (under HOME ["bin"; pretty_name +:+ ".tar.xz"]) = true ->
  sh_all (unpack default_name pretty_name) (fs w) = Some f' ->
  _download_executable_tarball dc default_name pretty_name w =
  (Ret tt,
   mkWorld f' (jira_gen w) (posts w) (inputs w)
           (trace w
            ++ [ELog Warning ("File %s exists. If you'd like to re-download this "
                              +:+ "file, please delete the local copy first.")
                     [str_path (under HOME ["bin"; pretty_name +:+ ".tar.xz"])]]
            ++ map ERun (unpack default_name pretty_name))).
Proof.
  intros Hno Htar Hsh. rewrite download_executable_tarball_absent by done.
  unfold bind at 1, _do_download. cbv zeta. cbn [relative_local remote].
  unfold bind at 1, get_fs at 1. rewrite Htar. unfold log. rewrite emit_logged.
  rewrite invoke_all_ok with (f' := f') by done.
  unfold logged. cbn [fs jira_gen posts inputs trace]. by rewrite <- !app_assoc.
Qed.

(** Without a tarball, [_download_executable_tarball] downloads it and then
    unpacks; a download that fails ends the step before anything is
    unpacked. *)
Theorem download_executable_tarball_fresh
    (dc : DownloadConfig) (default_name pretty_name : string) (w : World) :
  exists_ (fs w) (sub (sub HOME "bin") pretty_name) = false ->
  exists_ (fs w) (under HOME ["bin"; pretty_name +:+ ".tar.xz"]) = false ->
  let dc' := mkDownloadConfig (remote dc) ["bin"; pretty_name +:+ ".tar.xz"] in
  match sh (curl dc') (fs w) with
  | None =>
      _download_executable_tarball dc default_name pretty_name w =
      (Raise (UnexpectedExit (curl dc')),
       logged w [ELog Info (i_cmd (curl dc')) []; ERun (curl dc')])
  | Some f0 =>
      forall f', sh_all (unpack default_name pretty_name) f0 = Some f' ->
      _download_executable_tarball dc default_name pretty_name w =
      (Ret tt,
       mkWorld f' (jira_gen w) (posts w) (inputs w)
               (trace w ++ [ELog Info (i_cmd (curl dc')) []; ERun (curl dc')]
                ++ map ERun (unpack default_name pretty_name)))
  end.
Proof.
  intros Hno Htar dc'. rewrite download_executable_tarball_absent by done. fold dc'.
  assert (Hdl : _do_download dc' w =
                (invoke (curl dc') ;; ret tt) (logged w [ELog Info (i_cmd (curl dc')) []])).
  { unfold _do_download. cbv zeta. unfold bind at 1, get_fs at 1.
    cbn [relative_local remote dc']. rewrite Htar.
    unfold bind at 1, log. by rewrite emit_logged. }
  destruct (sh (curl dc') (fs w)) as [f0|] eqn:E.
  - intros f' Hsh. unfold bind at 1. rewrite Hdl. unfold bind at 1.
    erewrite invoke_ok; [|exact E]. unfold ret at 1.
    rewrite invoke_all_ok with (f' := f') by done.
    cbn [fs jira_gen posts inputs trace logged]. by rewrite <- !app_assoc.
  - unfold bind at 1. rewrite Hdl. unfold bind at 1.
    erewrite invoke_fails; [|exact E]. by rewrite logged_logged.
Qed.

(** [download_clang_format] tests for [bin/clang-format], the download
    inside it for [bin/llvm-3.8.0]: with the second there and the first
    missing nothing is downloaded and the link is made. *)
Theorem download_clang_format_relinks (w : World) :
  exists_ (fs w) (sub (sub HOME "bin") "clang-format") = false ->
  exists_ (fs w) (sub (sub HOME "bin") "llvm-3.8.0") = true ->
  let skipped := ELog Warning "File/Directory %s already exists. Skipping install"
                      [str_path (sub (sub HOME "bin") "llvm-3.8.0")] in
  match sh link_clang_format (fs w) with
  | Some f' =>
      download_clang_format w =
      (Ret tt,
       mkWorld f' (jira_gen w) (posts w) (inputs w)
               (trace w ++ [skipped; ERun link_clang_format]))
  | None =>
      download_clang_format w =
      (Raise (UnexpectedExit link_clang_format), logged w [skipped; ERun link_clang_format])
  end.
Proof.
  intros Hno Hllvm skipped.
  assert (Hbody : download_clang_format w =
                  (invoke link_clang_format ;; ret tt) (logged w [skipped])).
  { unfold download_clang_format. cbv zeta. unfold bind at 1, get_fs at 1. rewrite Hno.
    unfold bind at 1, _download_executable_tarball. cbv zeta.
    unfold bind at 1, get_fs at 1. rewrite Hllvm. unfold log. by rewrite emit_logged. }
  rewrite Hbody.
  destruct (sh link_clang_format (fs w)) as [f'|] eqn:E; unfold bind.
  - erewrite invoke_ok; [|exact E]. unfold ret.
    cbn [fs jira_gen posts inputs trace logged]. by rewrite <- !app_assoc.
  - erewrite invoke_fails; [|exact E]. by rewrite logged_logged.
Qed.

(** [download_evergreen] without [bin/evergreen]: the client is downloaded
    and then made executable; a download that fails ends the step before
    [chmod].  The warning of [_do_download] about an existing file is
    never reached from here. *)
Theorem download_evergreen_absent (w : World) :
  exists_ (fs w) (sub (sub HOME "bin") "evergreen") = false ->
  let fetch := curl evergreen_download in
  match sh fetch (fs w) with
  | None =>
      download_evergreen w =
      (Raise (UnexpectedExit fetch), logged w [ELog Info (i_cmd fetch) []; ERun fetch])
  | Some f1 =>
      match sh chmod_evergreen f1 with
      | Some f2 =>
          download_evergreen w =
          (Ret tt,
           mkWorld f2 (jira_gen w) (posts w) (inputs w)
                   (trace w ++ [ELog Info (i_cmd fetch) []; ERun fetch; ERun chmod_evergreen]))
      | None =>
          download_evergreen w =
          (Raise (UnexpectedExit chmod_evergreen),
           mkWorld f1 (jira_gen w) (posts w) (inputs w)
                   (trace w ++ [ELog Info (i_cmd fetch) []; ERun fetch; ERun chmod_evergreen]))
      end
  end.
Proof.
  intros Hno fetch.
  assert (Hsame : under HOME ["bin"; "evergreen"] = sub (sub HOME "bin") "evergreen").
  { unfold under, sub. by rewrite <- app_assoc. }
  assert (Hbody : download_evergreen w =
                  ((invoke fetch ;; ret tt) ;; invoke chmod_evergreen ;; ret tt)
                    (logged w [ELog Info (i_cmd fetch) []])).
  { unfold download_evergreen. cbv zeta. unfold bind at 1, get_fs at 1. rewrite Hno.
    unfold bind at 1, _do_download at 1. cbv zeta. cbn [relative_local remote].
    unfold bind at 1, get_fs at 1. rewrite Hsame, Hno.
    unfold bind at 1, log at 1. rewrite emit_logged. reflexivity. }
  rewrite Hbody.
  destruct (sh fetch (fs w)) as [f1|] eqn:E1.
  - destruct (sh chmod_evergreen f1) as [f2|] eqn:E2;
      unfold bind at 1 2; (erewrite invoke_ok; [|exact E1]); unfold ret at 1; unfold bind at 1.
    + erewrite invoke_ok; [|exact E2]. unfold ret.
      cbn [fs jira_gen posts inputs trace logged]. by rewrite <- !app_assoc.
    + erewrite invoke_fails; [|exact E2]. unfold logged.
      cbn [fs jira_gen posts inputs trace]. by rewrite <- !app_assoc.
  - unfold bind at 1 2. erewrite invoke_fails; [|exact E1]. by rewrite logged_logged.
Qed.

(** *** The repository environment *)

Lemma side_effects_ran (cmds : list invocation) :
  side_effects (flat_map ran_invocation cmds) = map ERun cmds.
Proof.
  induction cmds as [|i cmds IH]; [done|]. cbn [flat_map map].
  rewrite side_effects_app, IH. reflexivity.
Qed.

Lemma flat_map_ran (cwd : option path) (prefix cmds : list string) :
  flat_map (fun c => ran_invocation (Invocation false cwd prefix c)) cmds
  = flat_map ran_invocation (map (Invocation false cwd prefix) cmds).
Proof. induction cmds as [|c cmds IH]; [done|]. cbn [flat_map map]. by rewrite IH. Qed.

(** When its commands succeed, [setup_mongo_repo_env] runs: the two
    virtualenv commands if and only if the virtualenv is missing, then the
    two [pip install]s, then [scons] for [build.ninja] if and only if that
    file is missing at that point, and [ninja compiledb] last. *)
Theorem setup_mongo_repo_env_commands (w : World) (f1 f2 f3 : FS) :
  let venv :=
    if exists_ (fs w) (sub (sub REPO_ROOT "mongo") "python3-venv") then [] else venv_commands in
  let install :=
    [pip_requirements; pip_regex]
    ++ (if exists_ f1 (sub (sub REPO_ROOT "mongo") "build.ninja")
        then [] else [scons_build_ninja]) in
  sh_all venv (fs w) = Some f1 ->
  sh_all install f1 = Some f2 ->
  sh ninja_compiledb f2 = Some f3 ->
  exists w',
    setup_mongo_repo_env w = (Ret tt, w')
    /\ fs w' = f3
    /\ side_effects (since w w') = map ERun (venv ++ install ++ [ninja_compiledb]).
Proof.
  intros venv install Hvenv Hinstall Hdb.
  assert (Hdb' : sh_all (map (Invocation false (Some (sub REPO_ROOT "mongo")) [])
                             ["ninja compiledb"]) f2 = Some f3).
  { cbn [map sh_all]. fold ninja_compiledb. by rewrite Hdb. }
  unfold setup_mongo_repo_env. cbv zeta. unfold bind at 1, get_fs at 1.
  destruct (exists_ (fs w) (sub (sub REPO_ROOT "mongo") "python3-venv")) eqn:Ev;
    cbn [negb]; unfold bind at 1.
  - injection Hvenv as <-. unfold log at 1. rewrite emit_logged.
    unfold bind at 1, get_fs at 1. cbn [fs logged].
    destruct (exists_ (fs w) (sub (sub REPO_ROOT "mongo") "build.ninja")) eqn:Eb;
      cbn [negb app]; unfold bind at 1;
      (erewrite run_cmds_ok; [|exact Hinstall]);
      (erewrite run_cmds_ok; [|exact Hdb']);
      cbn [fs jira_gen posts inputs trace logged];
      (eexists; split; [reflexivity|]; split; [reflexivity|]);
      (erewrite since_app by (cbn [trace]; rewrite <- !app_assoc; reflexivity));
      rewrite !side_effects_app, !flat_map_ran, !side_effects_ran; reflexivity.
  - erewrite run_cmds_ok; [|exact Hvenv].
    unfold bind at 1, get_fs at 1. cbn [fs].
    destruct (exists_ f1 (sub (sub REPO_ROOT "mongo") "build.ninja")) eqn:Eb;
      cbn [negb app]; unfold bind at 1;
      (erewrite run_cmds_ok; [|exact Hinstall]);
      (erewrite run_cmds_ok; [|exact Hdb']);
      cbn [fs jira_gen posts inputs trace logged];
      (eexists; split; [reflexivity|]; split; [reflexivity|]);
      (erewrite since_app by (cbn [trace]; rewrite <- !app_assoc; reflexivity));
      rewrite !side_effects_app, !flat_map_ran, !side_effects_ran; reflexivity.
Qed.

(** *** The git hooks *)

(** With the hooks directory in place and its commands succeeding,
    [install_githooks] makes the link if and only if it is missing and
    runs [install-hooks] in either case. *)
Theorem install_githooks_commands (w : World) (f' : FS) :
  is_dir (fs w) (sub HOME ".githooks") = true ->
  let cmds :=
    (if exists_ (fs w) (sub (sub HOME ".githooks") "mongo") then [] else [link_githooks])
    ++ [install_hooks] in
  sh_all cmds (fs w) = Some f' ->
  exists w',
    install_githooks w = (Ret tt, w')
    /\ fs w' = f'
    /\ side_effects (since w w') = map ERun cmds.
Proof.
  intros Hd cmds Hsh. unfold install_githooks. cbv zeta.
  unfold bind at 1. rewrite mkdir_existing by done.
  unfold bind at 1, get_fs at 1. unfold cmds in *.
  destruct (exists_ (fs w) (sub (sub HOME ".githooks") "mongo")) eqn:El; cbn [negb app] in *.
  - cbn [sh_all] in Hsh. destruct (sh install_hooks (fs w)) as [f1|] eqn:E; [|done].
    injection Hsh as ->.
    unfold bind at 1, ret at 1. unfold bind at 1, ctx_run. fold install_hooks.
    erewrite invoke_ok; [|exact E].
    unfold bind, log, emit. cbn [fs jira_gen posts inputs trace].
    eexists; split; [reflexivity|]; split; [reflexivity|].
    erewrite since_app by (cbn [trace]; rewrite <- !app_assoc; reflexivity).
    reflexivity.
  - cbn [sh_all] in Hsh. destruct (sh link_githooks (fs w)) as [f0|] eqn:E0; [|done].
    destruct (sh install_hooks f0) as [f1|] eqn:E; [|done]. injection Hsh as ->.
    unfold bind at 1 2, ctx_run at 1. fold link_githooks.
    erewrite invoke_ok; [|exact E0]. unfold ret at 1.
    unfold bind at 1, ctx_run. fold install_hooks.
    erewrite invoke_ok; [|exact E].
    unfold bind, log, emit. cbn [fs jira_gen posts inputs trace].
    eexists; split; [reflexivity|]; split; [reflexivity|].
    erewrite since_app by (cbn [trace]; rewrite <- !app_assoc; reflexivity).
    reflexivity.
Qed.

(** *** Cloning *)

(** [clone_repos] creates the root of the repositories without its
    parents: where the directory above it is missing, the step raises
    [FileNotFoundError] before it logs or clones anything. *)
Theorem clone_repos_needs_parent (w : World) :
  file_above (fs w) [] REPO_ROOT = false ->
  exists_ (fs w) REPO_ROOT = false ->
  exists_ (fs w) (parent REPO_ROOT) = false ->
  clone_repos w = (Raise (FileNotFoundError REPO_ROOT), w).
Proof.
  intros Ha He Hp. unfold clone_repos, bind at 1, mkdir, mkdir_here, os_mkdir.
  unfold bind, get_fs. rewrite Ha, He, Hp. cbn [negb raise].
  unfold is_dir, exists_ in *. destruct (stat (fs w) REPO_ROOT); [done|].
  by rewrite andb_false_r.
Qed.

(** *** The run as a whole *)

(** A run that finishes has started and completed every step of the
    sequence, once each and in the order of the list. *)
Theorem macos_finished_ran_every_step (fuel : nat) (w w' : World) :
  macos fuel w = (Ret tt, w') ->
  markers (since w w') = flat_map step_markers (funcs fuel)
  /\ length (markers (since w w')) = 28.
Proof.
  intros Hrun.
  destruct (run_steps_markers (funcs fuel) (funcs_quiet fuel) w w' Hrun) as (d & Ht & Hm).
  rewrite (since_app _ _ _ Ht), Hm. split; reflexivity.
Qed.

(** *** What the steps may do *)

Lemma emits_req_input (P : event -> Prop) (msg : string) :
  P (EPrompt msg) -> emits P (req_input msg).
Proof. intros H w r w' [= <- <-]. exists [EPrompt msg]. split; [done|]. by constructor. Qed.

Lemma emits_conf_username (P : event -> Prop) : emits P conf_username.
Proof. intros w r w' [= <- <-]. exists []. by rewrite app_nil_r. Qed.

Lemma emits_conf_jira_pwd (P : event -> Prop) : emits P conf_jira_pwd.
Proof. intros w r w' [= <- <-]. exists []. by rewrite app_nil_r. Qed.

Lemma emits_conf_reset (P : event -> Prop) :
  P EReset -> emits P conf_reset_jira_credentials.
Proof. intros H w r w' [= <- <-]. exists [EReset]. split; [done|]. by constructor. Qed.

Lemma emits_requests_post (P : event -> Prop) (url user pwd : string) :
  P (EPost url user pwd) -> emits P (requests_post url user pwd).
Proof.
  intros H w r w' [= <- <-]. exists [EPost url user pwd]. split; [done|]. by constructor.
Qed.

Lemma emits_os_mkdir (P : event -> Prop) (p : path) :
  P (EMkdir p) -> emits P (os_mkdir p).
Proof.
  intros H. unfold os_mkdir. apply emits_bind; [apply emits_get_fs|]. intros f.
  repeat case_match; try apply emits_raise.
  apply emits_bind; [by apply emits_emit|]. intros _. apply emits_set_fs.
Qed.

Lemma emits_mkdir_here (P : event -> Prop) (exist_ok : bool) (p : path) :
  P (EMkdir p) -> emits P (mkdir_here exist_ok p).
Proof.
  intros H w r w'. unfold mkdir_here.
  destruct (os_mkdir p w) as [[a|e|] w1] eqn:E; intros Hr;
    destruct (emits_os_mkdir P p H _ _ _ E) as (d & Ht & Hd).
  - injection Hr as <- <-. eauto.
  - destruct (exist_ok && is_dir (fs w1) p); injection Hr as <- <-; eauto.
  - injection Hr as <- <-. eauto.
Qed.

Lemma emits_mkdir_parents (P : event -> Prop) (depth : nat) :
  (forall q, P (EMkdir q)) ->
  forall (exist_ok : bool) (p : path), emits P (mkdir_parents depth exist_ok p).
Proof.
  intros H. induction depth as [|depth IH]; intros exist_ok p w r w'; simpl;
    destruct (os_mkdir p w) as [[a|e|] w1] eqn:E; intros Hr;
    destruct (emits_os_mkdir P p (H p) _ _ _ E) as (d & Ht & Hd);
    try (injection Hr as <- <-; by eauto).
  - destruct e; try (destruct (exist_ok && is_dir (fs w1) p));
      injection Hr as <- <-; eauto.
  - destruct e; try (destruct (exist_ok && is_dir (fs w1) p); injection Hr as <- <-; by eauto);
      try (injection Hr as <- <-; by eauto).
    destruct p as [|c p']; [injection Hr as <- <-; by eauto|].
    assert (emits P (mkdir_parents depth true (parent (c :: p')) ;; mkdir_here exist_ok (c :: p')))
      as Hq.
    { apply emits_bind; [apply IH|]. intros _. by apply emits_mkdir_here. }
    destruct (Hq _ _ _ Hr) as (d2 & -> & Hd2).
    exists (d ++ d2). rewrite Ht, <- app_assoc. split; [done|]. by apply Forall_app.
Qed.

Lemma emits_mkdir (P : event -> Prop) (parents exist_ok : bool) (p : path) :
  (if parents then forall q, P (EMkdir q) else P (EMkdir p)) ->
  emits P (mkdir parents exist_ok p).
Proof.
  unfold mkdir. destruct parents; intros H;
    [by apply emits_mkdir_parents|by apply emits_mkdir_here].
Qed.

Lemma emits_open_w (P : event -> Prop) (p : path) : P (EOpen p) -> emits P (open_w p).
Proof.
  intros H. unfold open_w. apply emits_bind; [apply emits_get_fs|]. intros f.
  repeat case_match; try apply emits_raise.
  apply emits_bind; [by apply emits_emit|]. intros _. apply emits_set_fs.
Qed.

Lemma emits_fh_write (P : event -> Prop) (p : path) (data : string) :
  P (EWrite p data) -> emits P (fh_write p data).
Proof.
  intros H. unfold fh_write. apply emits_bind; [apply emits_get_fs|]. intros f.
  apply emits_bind; [by apply emits_emit|]. intros _. apply emits_set_fs.
Qed.

Lemma emits_invoke (P : event -> Prop) (i : invocation) : P (ERun i) -> emits P (invoke i).
Proof.
  intros H. unfold invoke. apply emits_bind; [by apply emits_emit|]. intros _.
  apply emits_bind; [apply emits_get_fs|]. intros f.
  destruct (sh i f); [|apply emits_raise].
  apply emits_bind; [apply emits_set_fs|]. intros _. apply emits_ret.
Qed.

Lemma emits_for_each_in (P : event -> Prop) {A} (body : A -> M unit) (l : list A) :
  (forall x, In x l -> emits P (body x)) -> emits P (for_each body l).
Proof.
  induction l as [|x l IH]; intros Hb; cbn [for_each]; [apply emits_ret|].
  apply emits_bind; [apply Hb; by left|]. intros _. apply IH.
  intros y Hy. apply Hb. by right.
Qed.

Lemma emits_out_of_fuel (P : event -> Prop) {A} : emits P (fun w => (@OutOfFuel A, w)).
Proof. intros w r w' [= <- <-]. exists []. by rewrite app_nil_r. Qed.

(** One step of the analysis of a computation; [tac] shows that an event
    is allowed. *)
Ltac emits_step tac :=
  lazymatch goal with
  | |- emits _ (bind _ _) => apply emits_bind; [|intros ?]
  | |- emits _ (ret _) => apply emits_ret
  | |- emits _ (raise _) => apply emits_raise
  | |- emits _ (emit _) => apply emits_emit; tac
  | |- emits _ (log _ _ _) => apply emits_emit; tac
  | |- emits _ get_fs => apply emits_get_fs
  | |- emits _ (set_fs _) => apply emits_set_fs
  | |- emits _ (for_each _ _) => apply emits_for_each; intros ?
  | |- emits _ (try_unexpected_exit _ _ _) => apply emits_try; [| |intros ?]
  | |- emits _ (req_input _) => apply emits_req_input; tac
  | |- emits _ conf_username => apply emits_conf_username
  | |- emits _ conf_jira_pwd => apply emits_conf_jira_pwd
  | |- emits _ conf_reset_jira_credentials => apply emits_conf_reset; tac
  | |- emits _ conf_get_sudo_pwd => apply emits_ret
  | |- emits _ (requests_post _ _ _) => apply emits_requests_post; tac
  | |- emits _ (mkdir _ _ _) => apply emits_mkdir; cbv iota; intros; tac
  | |- emits _ (open_w _) => apply emits_open_w; tac
  | |- emits _ (fh_write _ _) => apply emits_fh_write; tac
  | |- emits _ (ctx_run _ _ _) => apply emits_invoke; tac
  | |- emits _ (ctx_sudo _ _) => apply emits_invoke; tac
  | |- emits _ (res_json _) => unfold res_json
  | |- emits _ (getitem _ _) => unfold getitem
  | |- emits _ (call _) => unfold call
  | |- emits _ (log_multiline _ _) => unfold log_multiline
  | |- emits _ (run_cmds _ _ _) => unfold run_cmds
  | |- emits _ (_do_download _) => unfold _do_download
  | |- emits _ (_download_executable_tarball _ _ _) => unfold _download_executable_tarball
  | |- emits _ (if ?b then _ else _) => destruct b
  | |- emits _ (match ?x with _ => _ end) => destruct x
  end.

Ltac emits_tac tac := cbv zeta; repeat (emits_step tac; cbv zeta).

Lemma emits_credential_loop (P : event -> Prop) (fuel : nat) :
  (forall u p, P (EPost settings_url u p)) ->
  (forall m a, P (ELog Error m a)) ->
  P (EPrompt "Press any key to retry...") ->
  P EReset ->
  P (EOpen EVG_CONFIG_FILE) ->
  (forall data, P (EWrite EVG_CONFIG_FILE data)) ->
  emits P (credential_loop fuel).
Proof.
  intros Hpost Hlog Hprompt Hreset Hopen Hwrite.
  induction fuel as [|fuel IH]; cbn [credential_loop]; [apply emits_out_of_fuel|].
  emits_tac ltac:(auto). exact IH.
Qed.

(** The same for a run of steps, with the runner's own lines. *)
Lemma emits_run_steps_with (P : event -> Prop) (l : list Step) :
  (forall label, P (EStart label) /\ P (EDone label)) ->
  Forall (fun s : Step => emits P (fst s)) l ->
  emits P (run_steps l).
Proof.
  intros Hm. induction 1 as [|s l Hs _ IH]; unfold run_steps; cbn [for_each];
    [apply emits_ret|].
  apply emits_bind; [|intros _; apply IH]. unfold log_func.
  apply emits_bind; [apply emits_emit, Hm|]. intros _.
  apply emits_bind; [done|]. intros _. apply emits_emit, Hm.
Qed.

Lemma emits_since (P : event -> Prop) {A} (m : M A) (w : World) :
  emits P m -> Forall P (since w (snd (m w))).
Proof.
  intros Hm. destruct (m w) as [r w'] eqn:E. destruct (Hm _ _ _ E) as (d & Ht & Hd).
  cbn [snd]. by rewrite (since_app _ _ _ Ht).
Qed.

(** [clone_repos] does nothing but log, create the root of the
    repositories and clone required repositories, each from its remote
    into its directory, from within the root: it writes no file, asks
    nothing and uses no privilege. *)
Theorem clone_repos_only_clones (w : World) :
  Forall clone_event (since w (snd (clone_repos w))).
Proof.
  apply emits_since. unfold clone_repos.
  apply emits_bind; [by apply emits_mkdir|]. intros _.
  apply emits_bind; [by apply emits_emit|]. intros _.
  apply emits_for_each_in. intros rc Hrc.
  emits_tac ltac:(first [exact I | by exists rc]).
Qed.

(** The analysis carried through the steps themselves. *)
Ltac emits_program tac :=
  cbv zeta;
  repeat (first
    [ emits_step tac
    | lazymatch goal with
      | |- emits _ ssh_keys => unfold ssh_keys
      | |- emits _ (create_dir _) => unfold create_dir
      | |- emits _ (evergreen_yaml _) => unfold evergreen_yaml
      | |- emits _ (credential_loop _) => apply emits_credential_loop; intros; tac
      | |- emits _ clone_repos => unfold clone_repos
      | |- emits _ download_clang_format => unfold download_clang_format
      | |- emits _ download_eslint => unfold download_eslint
      | |- emits _ download_evergreen => unfold download_evergreen
      | |- emits _ install_ninja => unfold install_ninja
      | |- emits _ setup_mongo_repo_env => unfold setup_mongo_repo_env
      | |- emits _ install_githooks => unfold install_githooks
      | |- emits _ install_shell_profile => unfold install_shell_profile
      | |- emits _ post_task_instructions => unfold post_task_instructions
      end ];
    cbv zeta).

Ltac emits_funcs tac :=
  unfold funcs; repeat (apply Forall_cons_2; [cbn [fst]; emits_program tac|]);
  apply Forall_nil_2.

Ltac allowed_write :=
  unfold writes_ok, written_files; cbn [In]; first [exact I | auto].

Ltac allowed_sudo :=
  unfold sudo_ok, sudo_commands, sudo_mkdir, sudo_chown; cbn [i_sudo flat_map app In];
  first [exact I | discriminate | (intros _; auto 10)].

Ltac allowed_interaction :=
  unfold interaction_ok; first [exact I | reflexivity | auto].

(** Whatever a run of the sequence meets and however it ends, the only
    files that the tool itself opens or writes are the Evergreen
    configuration, the ssh configuration and the shell profile. *)
Theorem macos_writes_three_files (fuel : nat) (w : World) :
  Forall writes_ok (since w (snd (macos fuel w))).
Proof.
  apply emits_since. unfold macos. apply emits_run_steps_with; [by split|].
  emits_funcs allowed_write.
Qed.

(** The only privileged commands of a run are [mkdir -p] and [chown] for
    [/data], [/opt/mongodbtoolchain] and the user's [bin] directory. *)
Theorem macos_sudo_only_for_directories (fuel : nat) (w : World) :
  Forall (sudo_ok [["data"]; ["opt"; "mongodbtoolchain"]; sub HOME "bin"])
         (since w (snd (macos fuel w))).
Proof.
  apply emits_since. unfold macos. apply emits_run_steps_with; [by split|].
  emits_funcs allowed_sudo.
Qed.

(** A run prompts the operator with the ssh question or the request to
    retry only, posts to the Evergreen key endpoint only, and opens the
    browser on the GitHub help page only. *)
Theorem macos_interactions (fuel : nat) (w : World) :
  Forall interaction_ok (since w (snd (macos fuel w))).
Proof.
  apply emits_since. unfold macos. apply emits_run_steps_with; [by split|].
  emits_funcs allowed_interaction.
Qed.

(** The nine steps from [clone_repos] on never prompt, post, open the
    browser or reset the credentials. *)
Theorem automated_steps_unattended (fuel : nat) (w : World) :
  Forall unattended (since w (snd (run_steps (drop 5 (funcs fuel)) w))).
Proof.
  apply emits_since. apply emits_run_steps_with; [by split|].
  unfold funcs. cbn [drop].
  repeat (apply Forall_cons_2; [cbn [fst]; emits_program ltac:(exact I)|]).
  apply Forall_nil_2.
Qed.

End Further.

(** ** The theorems on the concrete machine *)

Section Examples.

#[local] Existing Instance example_config.
#[local] Existing Instance example_templates.

Lemma evergreen_yaml_existing_file_witness :
  exists_ (fs ready_world) EVG_CONFIG_FILE = true
  /\ fst (evergreen_yaml (env := scripted_env "" true) 1 ready_world) = Ret true.
Proof.
  split; [reflexivity|].
  destruct (evergreen_yaml_existing_file (env := scripted_env "" true) 1 ready_world)
    as [H _]; [reflexivity|].
  rewrite H. reflexivity.
Defined.

Lemma evergreen_yaml_retries_witness :
  exists w',
    evergreen_yaml (env := scripted_env "" true) 3 fresh_world = (Ret true, w')
    /\ read (fs w') EVG_CONFIG_FILE = Some (evergreen_yaml_template "dev" "0123abcd")
    /\ posts w' = 3 /\ inputs w' = 2.
Proof.
  destruct (evergreen_yaml_retries (env := scripted_env "" true)
              2 3 fresh_world issued_key "dev" "0123abcd")
    as (w' & d & Hrun & _ & _ & _ & _ & _ & _ & _ & Hread & Hposts & Hinputs & _).
  - reflexivity.
  - reflexivity.
  - intros i Hi. destruct i as [|[|i]]; [vm_compute; discriminate..|lia].
  - reflexivity.
  - reflexivity.
  - reflexivity.
  - reflexivity.
  - lia.
  - exists w'. auto.
Defined.

Lemma credential_loop_ends_iff_success_witness :
  fst (credential_loop (env := scripted_env "" true) 3 fresh_world) <> OutOfFuel.
Proof.
  destruct (credential_loop_ends_iff_success (env := scripted_env "" true) fresh_world)
    as (_ & Hends & _).
  apply (Hends 2 3); [reflexivity|lia].
Defined.

Lemma macos_aborts_at_failing_step_witness :
  final_state (fst (macos (env := scripted_env "" false) 1 keyed_world)) = Aborted.
Proof.
  destruct (macos_aborts_at_failing_step (env := scripted_env "" false) 1 1
              (call (create_dir (env := scripted_env "" false) ["data"]),
               "Create MongoDB Data Directory")
              keyed_world after_ssh_step
              (snd (call (create_dir (env := scripted_env "" false) ["data"])
                      (snd (emit (EStart "Create MongoDB Data Directory") after_ssh_step))))
              (UnexpectedExit (Invocation true None [] "mkdir -p /data")))
    as (_ & Hstate & _).
  - reflexivity.
  - vm_compute. reflexivity.
  - vm_compute. reflexivity.
  - discriminate.
  - exact Hstate.
Defined.

Lemma ssh_keys_manual_followup_halts_witness :
  final_state (fst (macos (env := scripted_env "" true) 1 fresh_world)) = HaltedForManualAction
  /\ exit_status (fst (macos (env := scripted_env "" true) 1 fresh_world)) = Some 0%Z.
Proof.
  destruct (ssh_keys_manual_followup_halts (env := scripted_env "" true) 1 fresh_world)
    as (_ & _ & _ & _ & Hstate & Hexit).
  - reflexivity.
  - reflexivity.
  - discriminate.
  - auto.
Defined.

Lemma ssh_keys_overwrites_config_before_prompt_witness :
  exists w',
    ssh_keys (env := scripted_env "skip" true) fresh_world = (Ret tt, w')
    /\ read (fs w') (sub (sub HOME ".ssh") "config") = Some ssh_stanza.
Proof.
  destruct (ssh_keys_overwrites_config_before_prompt (env := scripted_env "skip" true)
              1 fresh_world)
    as (r & w' & Hrun & _ & _ & _ & Hread & Hskip & _).
  - reflexivity.
  - reflexivity.
  - destruct (Hskip eq_refl) as [-> _]. exists w'. auto.
Defined.

Lemma install_shell_profile_always_overwrites_witness :
  read (fs ready_world) (sub CONFIG_DIR "profile") = Some "alias ll='ls -l'"
  /\ exists w',
       install_shell_profile ready_world = (Ret tt, w')
       /\ read (fs w') (sub CONFIG_DIR "profile") = Some shell_profile_template.
Proof.
  split; [reflexivity|].
  destruct (install_shell_profile_always_overwrites ready_world)
    as [(w' & dirs & Hrun & _ & _ & _ & Hread & _) _].
  - reflexivity.
  - reflexivity.
  - exists w'. auto.
Defined.

(** C1 fails as stated: on the ready machine [bin/evergreen] exists, and
    [download_evergreen] runs [chmod +x evergreen] all the same. *)
Lemma guarded_steps_side_effects_counterexample :
  ~ (forall (s : step_id) (fuel : nat) (w : World),
       guard (H0 := scripted_env "" true) s (fs w) = true ->
       exists w', action (H1 := scripted_env "" true) s fuel w = (Ret tt, w')
                  /\ side_effects (since w w') = []).
Proof.
  intros Hclaim.
  destruct (Hclaim DownloadEvergreen 0 ready_world) as (w' & Hrun & Hnone); [reflexivity|].
  assert (Hw : w' = snd (action (H1 := scripted_env "" true) DownloadEvergreen 0 ready_world))
    by (by rewrite Hrun).
  rewrite Hw in Hnone. vm_compute in Hnone. discriminate.
Qed.

Lemma guarded_steps_side_effects_witness :
  guard (H0 := scripted_env "" true) DownloadEvergreen (fs ready_world) = true
  /\ exists r w',
       download_evergreen (env := scripted_env "" true) ready_world = (r, w')
       /\ side_effects (since ready_world w') = [ERun chmod_evergreen].
Proof.
  split; [reflexivity|].
  apply (guarded_steps_side_effects (env := scripted_env "" true)
           DownloadEvergreen 0 ready_world).
  reflexivity.
Defined.

(** C8 fails as stated: with the credential file in place
    [evergreen_yaml] logs no warning. *)
Lemma guarded_steps_message_level_counterexample :
  ~ (forall (s : step_id) (fuel : nat) (w : World),
       guard (H0 := scripted_env "" true) s (fs w) = true ->
       exists r w', action (H1 := scripted_env "" true) s fuel w = (r, w')
                    /\ warnings (since w w') <> []).
Proof.
  intros Hclaim.
  destruct (Hclaim EvergreenYaml 1 ready_world) as (r & w' & Hrun & Hwarn); [reflexivity|].
  assert (Hw : w' = snd (action (H1 := scripted_env "" true) EvergreenYaml 1 ready_world))
    by (by rewrite Hrun).
  apply Hwarn. rewrite Hw. vm_compute. reflexivity.
Qed.

Lemma guarded_steps_message_level_witness :
  guard (H0 := scripted_env "" true) EvergreenYaml (fs ready_world) = true
  /\ exists r w',
       action (H1 := scripted_env "" true) EvergreenYaml 1 ready_world = (r, w')
       /\ warnings (since ready_world w') = [].
Proof.
  split; [reflexivity|].
  destruct (guarded_steps_message_level (env := scripted_env "" true)
              EvergreenYaml 1 ready_world) as (r & w' & Hrun & Hw & _); [reflexivity|].
  exists r, w'. auto.
Defined.

(** C2 fails as stated: the second of two runs on the ready machine has
    side effects. *)
Lemma second_run_repeats_unguarded_effects_counterexample :
  ~ (forall (fuel : nat) (w0 w1 w2 : World) (r : result unit),
       macos (env := scripted_env "" true) fuel w0 = (Ret tt, w1) ->
       macos (env := scripted_env "" true) fuel w1 = (r, w2) ->
       side_effects (since w1 w2) = [] /\ final_state r = Finished).
Proof.
  intros Hclaim.
  destruct (Hclaim 1 ready_world after_first_run
              (snd (macos (env := scripted_env "" true) 1 after_first_run))
              (fst (macos (env := scripted_env "" true) 1 after_first_run)))
    as [Hnone _].
  - unfold after_first_run.
    apply (result_and_world (macos (env := scripted_env "" true) 1) ready_world).
    vm_compute. reflexivity.
  - exact (result_and_world _ _ _ eq_refl).
  - vm_compute in Hnone. discriminate.
Qed.

Lemma second_run_repeats_unguarded_effects_witness :
  macos (env := scripted_env "" true) 1 ready_world = (Ret tt, after_first_run)
  /\ exists w2,
       macos (env := scripted_env "" true) 1 after_first_run = (Ret tt, w2)
       /\ fs w2 = fs after_first_run
       /\ side_effects (since after_first_run w2) = rerun_effects.
Proof.
  assert (Hfirst : macos (env := scripted_env "" true) 1 ready_world = (Ret tt, after_first_run)).
  { unfold after_first_run.
    apply (result_and_world (macos (env := scripted_env "" true) 1) ready_world).
    vm_compute. reflexivity. }
  split; [exact Hfirst|].
  destruct (second_run_repeats_unguarded_effects (env := scripted_env "" true)
              1 ready_world after_first_run Hfirst)
    as (w2 & Hrun & _ & Hfs & Heff).
  - vm_compute. reflexivity.
  - repeat (apply Forall_cons_2; [reflexivity|]). apply Forall_nil_2.
  - exists w2. auto.
Defined.

Lemma create_dir_creates_witness :
  exists_ (fs foreign_data_world) ["data"] = true
  /\ fst (create_dir (env := scripted_env "" true) ["data"] foreign_data_world) = Ret None
  /\ fst (create_dir (env := scripted_env "" false) ["data"] foreign_data_world)
     = Raise (UnexpectedExit (sudo_mkdir ["data"])).
Proof.
  assert (H1 : exists_ (fs foreign_data_world) ["data"]
               && bool_decide (owner (fs foreign_data_world) ["data"] = Some USER) = false)
    by reflexivity.
  split; [reflexivity|]. split.
  - exact (f_equal fst (create_dir_creates (env := scripted_env "" true)
                          ["data"] foreign_data_world H1)).
  - exact (f_equal fst (create_dir_creates (env := scripted_env "" false)
                          ["data"] foreign_data_world H1)).
Defined.



Lemma download_executable_tarball_reuses_tarball_witness :
  fst (_download_executable_tarball (env := scripted_env "" true)
         (mkDownloadConfig ESLINT_URL []) "eslint-Darwin-x86_64" "eslint" half_done_world)
  = Ret tt.
Proof.
  rewrite (download_executable_tarball_reuses_tarball (env := scripted_env "" true)
             (mkDownloadConfig ESLINT_URL []) "eslint-Darwin-x86_64" "eslint"
             half_done_world (fs half_done_world)); reflexivity.
Defined.

Lemma download_executable_tarball_fresh_witness :
  fst (_download_executable_tarball (env := scripted_env "" true)
         (mkDownloadConfig ESLINT_URL []) "eslint-Darwin-x86_64" "eslint" fresh_world)
  = Ret tt.
Proof.
  assert (H1 : exists_ (fs fresh_world) (sub (sub HOME "bin") "eslint") = false)
    by reflexivity.
  assert (H2 : exists_ (fs fresh_world) (under HOME ["bin"; "eslint" +:+ ".tar.xz"]) = false)
    by reflexivity.
  rewrite (download_executable_tarball_fresh (env := scripted_env "" true)
             (mkDownloadConfig ESLINT_URL []) "eslint-Darwin-x86_64" "eslint"
             fresh_world H1 H2 (fs fresh_world)); reflexivity.
Defined.

Lemma download_clang_format_relinks_witness :
  fst (download_clang_format (env := scripted_env "" true) half_done_world) = Ret tt.
Proof.
  assert (H1 : exists_ (fs half_done_world) (sub (sub HOME "bin") "clang-format") = false)
    by reflexivity.
  assert (H2 : exists_ (fs half_done_world) (sub (sub HOME "bin") "llvm-3.8.0") = true)
    by reflexivity.
  exact (f_equal fst (download_clang_format_relinks (env := scripted_env "" true)
                        half_done_world H1 H2)).
Defined.

Lemma download_evergreen_absent_witness :
  fst (download_evergreen (env := scripted_env "" true) fresh_world) = Ret tt.
Proof.
  assert (H1 : exists_ (fs fresh_world) (sub (sub HOME "bin") "evergreen") = false)
    by reflexivity.
  exact (f_equal fst (download_evergreen_absent (env := scripted_env "" true)
                        fresh_world H1)).
Defined.

Lemma setup_mongo_repo_env_commands_witness :
  exists w',
    setup_mongo_repo_env (env := scripted_env "" true) fresh_world = (Ret tt, w')
    /\ side_effects (since fresh_world w')
       = map ERun (venv_commands
                   ++ [pip_requirements; pip_regex; scons_build_ninja; ninja_compiledb]).
Proof.
  destruct (setup_mongo_repo_env_commands (env := scripted_env "" true)
              fresh_world fresh_fs fresh_fs fresh_fs) as (w' & Hrun & _ & Heff);
    [reflexivity..|].
  exists w'. split; [exact Hrun|exact Heff].
Defined.

Lemma install_githooks_commands_witness :
  exists w',
    install_githooks (env := scripted_env "" true) ready_world = (Ret tt, w')
    /\ side_effects (since ready_world w') = [ERun install_hooks].
Proof.
  destruct (install_githooks_commands (env := scripted_env "" true)
              ready_world ready_fs) as (w' & Hrun & _ & Heff); [reflexivity..|].
  exists w'. split; [exact Hrun|exact Heff].
Defined.

Lemma clone_repos_needs_parent_witness :
  fst (clone_repos (env := scripted_env "" true) bare_world)
  = Raise (FileNotFoundError REPO_ROOT).
Proof.
  rewrite (clone_repos_needs_parent (env := scripted_env "" true) bare_world); reflexivity.
Defined.

Lemma macos_finished_ran_every_step_witness :
  length (markers (since ready_world after_first_run)) = 28.
Proof.
  apply (macos_finished_ran_every_step (env := scripted_env "" true) 1 ready_world).
  unfold after_first_run.
  apply (result_and_world (macos (env := scripted_env "" true) 1) ready_world).
  vm_compute. reflexivity.
Defined.

End Examples.
